(** * ChittyOS export validators: preflight.py and verify_bundle.py

    A shallow embedding of the two command-line validators under
    [scripts/] and the properties their specification states about them.

    The scripts are dynamically typed Python working on parsed YAML and
    JSON documents, printing a running commentary and returning booleans.
    The embedding keeps that shape:
    - parsed documents are values of [pyval] (dicts keep insertion order);
    - every function runs in [Py], a writer over the printed lines with
      an outcome that is a return value, an uncaught exception or a
      [sys.exit];
    - the file system, the environment and the YAML and JSON parsers are
      parameters of the development;
    - [csv.reader] is modelled by the state machine of CPython's [_csv]
      module for the default (excel) dialect. *)

From Stdlib Require Import String Ascii List ZArith NArith Bool Lia.
Import ListNotations.

Local Open Scope string_scope.
Local Open Scope list_scope.

#[local] Set Warnings "-register-all".

(* ================================================================== *)
(** * Python values *)

(** The values [yaml.safe_load] and [json.load] produce.  Numbers are
    restricted to integers and dict keys to strings; a dict is the list
    of its entries in insertion order, its keys pairwise distinct. *)
Inductive pyval : Type :=
| PNone
| PBool (b : bool)
| PInt (z : Z)
| PStr (s : string)
| PList (l : list pyval)
| PDict (d : list (string * pyval)).

Definition dict : Type := list (string * pyval).

(** [k in d] and [d[k]] for a dict [d]. *)
Fixpoint lookup (k : string) (d : dict) : option pyval :=
  match d with
  | [] => None
  | (k', v) :: d' => if (k' =? k)%string then Some v else lookup k d'
  end.

Definition keys (d : dict) : list string := map fst d.

(** [bool(v)]: [None], [False], zero and empty containers are falsy. *)
Definition truthy (v : pyval) : bool :=
  match v with
  | PNone => false
  | PBool b => b
  | PInt z => negb (z =? 0)%Z
  | PStr s => negb (s =? "")%string
  | PList l => negb (Nat.eqb (length l) 0)
  | PDict d => negb (Nat.eqb (length d) 0)
  end.

(** [a == b].  Booleans compare as the integers 0 and 1; dicts compare
    regardless of the order of their entries. *)
Fixpoint py_eq (a b : pyval) {struct a} : bool :=
  match a, b with
  | PNone, PNone => true
  | PBool x, PBool y => Bool.eqb x y
  | PBool x, PInt z => (z =? (if x then 1 else 0))%Z
  | PInt z, PBool x => (z =? (if x then 1 else 0))%Z
  | PInt x, PInt y => (x =? y)%Z
  | PStr x, PStr y => (x =? y)%string
  | PList xs, PList ys =>
      (fix all2 (xs ys : list pyval) {struct xs} : bool :=
         match xs, ys with
         | [], [] => true
         | x :: xs', y :: ys' => py_eq x y && all2 xs' ys'
         | _, _ => false
         end) xs ys
  | PDict d, PDict e =>
      Nat.eqb (length d) (length e) &&
      (fix sub (d : dict) {struct d} : bool :=
         match d with
         | [] => true
         | (k, v) :: d' =>
             match lookup k e with
             | Some w => py_eq v w
             | None => false
             end && sub d'
         end) d
  | _, _ => false
  end.

(** [s.startswith(p)]. *)
Definition startswith (s p : string) : bool := String.prefix p s.

(** [p in s] for two strings: [p] occurs in [s]. *)
Fixpoint substring_of (p s : string) : bool :=
  String.prefix p s ||
  match s with
  | EmptyString => false
  | String _ s' => substring_of p s'
  end.

(* ------------------------------------------------------------------ *)
(** ** Outcomes and the [Py] monad *)

(** The exceptions the two scripts can meet. *)
Inductive exn : Type :=
| AttributeError
| TypeError
| KeyError
| OSError
| FileNotFoundError
| YAMLError
| JSONDecodeError
| csv_Error.

(** How a call ends: with a value, with an exception that nobody caught
    so far, or with [sys.exit(code)] ([SystemExit] is not an
    [Exception], so no handler of the scripts catches it). *)
Inductive outcome (A : Type) : Type :=
| Ret (a : A)
| Raise (e : exn)
| Exit (code : Z).
Arguments Ret {A} a.
Arguments Raise {A} e.
Arguments Exit {A} code.

(** A computation: the lines printed so far, in order, and the outcome. *)
Definition Py (E A : Type) : Type := list E * outcome A.

Definition ret {E A} (a : A) : Py E A := ([], Ret a).

Definition bind {E A B} (m : Py E A) (f : A -> Py E B) : Py E B :=
  match snd m with
  | Ret a => (fst m ++ fst (f a), snd (f a))
  | Raise e => (fst m, Raise e)
  | Exit c => (fst m, Exit c)
  end.

Definition print {E} (e : E) : Py E unit := ([e], Ret tt).
Definition raise {E A} (e : exn) : Py E A := ([], Raise e).
Definition sys_exit {E A} (code : Z) : Py E A := ([], Exit code).

(** [try: m  except ...: h]: the handler [h] gives the except clause
    that matches the exception, [None] when no clause does. *)
Definition try_except {E A} (m : Py E A) (h : exn -> option (Py E A))
  : Py E A :=
  match snd m with
  | Raise e =>
      match h e with
      | Some k => (fst m ++ fst k, snd k)
      | None => m
      end
  | _ => m
  end.

Notation "x <- m ;; k" := (bind m (fun x => k))
  (at level 61, m at next level, right associativity).
Notation "m ;;; k" := (bind m (fun _ => k))
  (at level 61, right associativity).

(** The printed lines and the outcome of a computation. *)
Definition output {E A} (m : Py E A) : list E := fst m.
Definition result {E A} (m : Py E A) : outcome A := snd m.

(* ------------------------------------------------------------------ *)
(** ** Operations on values that can raise *)

Section PyOps.
Context {E : Type}.

(** [v.get(k, default)]: only a dict has [get]. *)
Definition py_get (v : pyval) (k : string) (default : pyval) : Py E pyval :=
  match v with
  | PDict d => ret (match lookup k d with Some x => x | None => default end)
  | _ => raise AttributeError
  end.

(** [k in v] for a string [k]. *)
Definition py_in (k : string) (v : pyval) : Py E bool :=
  match v with
  | PDict d => ret (match lookup k d with Some _ => true | None => false end)
  | PList l => ret (existsb (py_eq (PStr k)) l)
  | PStr s => ret (substring_of k s)
  | _ => raise TypeError
  end.

(** [v[k]] for a string [k]. *)
Definition py_getitem (v : pyval) (k : string) : Py E pyval :=
  match v with
  | PDict d => match lookup k d with Some x => ret x | None => raise KeyError end
  | _ => raise TypeError
  end.

(** [list(v.keys())]. *)
Definition py_keys (v : pyval) : Py E (list string) :=
  match v with
  | PDict d => ret (keys d)
  | _ => raise AttributeError
  end.

(** [len(v)]. *)
Definition py_len (v : pyval) : Py E nat :=
  match v with
  | PStr s => ret (String.length s)
  | PList l => ret (length l)
  | PDict d => ret (length d)
  | _ => raise TypeError
  end.

(** The elements [for x in v] visits: the items of a list, the keys of
    a dict, the characters of a string. *)
Definition py_iter (v : pyval) : Py E (list pyval) :=
  match v with
  | PList l => ret l
  | PDict d => ret (map PStr (keys d))
  | PStr s => ret (map (fun c => PStr (String c EmptyString)) (list_ascii_of_string s))
  | _ => raise TypeError
  end.

(** [v.startswith(p)]: only a string has [startswith]. *)
Definition py_startswith (v : pyval) (p : string) : Py E bool :=
  match v with
  | PStr s => ret (startswith s p)
  | _ => raise AttributeError
  end.
End PyOps.

(* ================================================================== *)
(** * Text files and [csv.reader] *)

Definition LF : ascii := "010"%char.
Definition CR : ascii := "013"%char.
Definition COMMA : ascii := ","%char.
Definition QUOTE : ascii := "034"%char.

(** What [open(path, "r")] hands out in text mode: the characters of
    the file with every line ending ([CR LF], [CR] or [LF]) read as one
    [LF]. *)
Fixpoint universal_newlines (s : string) : string :=
  match s with
  | EmptyString => EmptyString
  | String c rest =>
      if Ascii.eqb c CR then
        match rest with
        | String c' rest' =>
            if Ascii.eqb c' LF then String LF (universal_newlines rest')
            else String LF (universal_newlines rest)
        | EmptyString => String LF EmptyString
        end
      else String c (universal_newlines rest)
  end.

(** The lines iterating over a text file yields: each one runs up to
    and including its [LF]; a last line with no [LF] is a line too. *)
Fixpoint lines_from (cur s : string) : list string :=
  match s with
  | EmptyString => if (cur =? "")%string then [] else [cur]
  | String c rest =>
      if Ascii.eqb c LF then (cur ++ String LF EmptyString)%string :: lines_from "" rest
      else lines_from (cur ++ String c EmptyString)%string rest
  end.

Definition file_lines (content : string) : list string :=
  lines_from "" (universal_newlines content).

Module csv.

(** The states of the reader ([ParserState] of [_csv.c]).  The excel
    dialect has no escape character, so the three states that follow
    one are left out. *)
Inductive ParserState : Type :=
| START_RECORD
| START_FIELD
| IN_FIELD
| IN_QUOTED_FIELD
| QUOTE_IN_QUOTED_FIELD
| EAT_CRNL.

Definition state_eqb (a b : ParserState) : bool :=
  match a, b with
  | START_RECORD, START_RECORD | START_FIELD, START_FIELD
  | IN_FIELD, IN_FIELD | IN_QUOTED_FIELD, IN_QUOTED_FIELD
  | QUOTE_IN_QUOTED_FIELD, QUOTE_IN_QUOTED_FIELD | EAT_CRNL, EAT_CRNL => true
  | _, _ => false
  end.

(** The part of [ReaderObj] parsing works on: the fields of the
    record being read, the field being read and its length. *)
Record ReaderObj : Type := {
  state : ParserState;
  fields : list string;
  field : string;
  field_len : N
}.

(** [csv.field_size_limit()]. *)
Definition field_limit : N := 131072.

Definition parse_reset : ReaderObj :=
  {| state := START_RECORD; fields := []; field := ""; field_len := 0 |}.

Definition set_state (r : ReaderObj) (s : ParserState) : ReaderObj :=
  {| state := s; fields := fields r; field := field r; field_len := field_len r |}.

Definition parse_save_field (r : ReaderObj) : ReaderObj :=
  {| state := state r; fields := fields r ++ [field r];
     field := ""; field_len := 0 |}.

(** [None] is the error "field larger than field limit". *)
Definition parse_add_char (r : ReaderObj) (c : ascii) : option ReaderObj :=
  if (field_limit <=? field_len r)%N then None
  else Some {| state := state r; fields := fields r;
               field := (field r ++ String c EmptyString)%string;
               field_len := field_len r + 1 |}.

Definition is_newline (c : ascii) : bool := Ascii.eqb c LF || Ascii.eqb c CR.

(** [parse_process_char] for the excel dialect (delimiter [,],
    quotechar the double quote, doublequote on, no escapechar, no
    skipinitialspace, not strict, QUOTE_MINIMAL).  The character
    [None] is the end-of-line mark the reader feeds after each line;
    the result [None] is a [csv.Error]. *)
Definition start_field (r : ReaderObj) (c : option ascii) : option ReaderObj :=
  match c with
  | None => Some (set_state (parse_save_field r) START_RECORD)
  | Some ch =>
      if is_newline ch then Some (set_state (parse_save_field r) EAT_CRNL)
      else if Ascii.eqb ch QUOTE then Some (set_state r IN_QUOTED_FIELD)
      else if Ascii.eqb ch COMMA then Some (parse_save_field r)
      else option_map (fun r' => set_state r' IN_FIELD) (parse_add_char r ch)
  end.

Definition parse_process_char (r : ReaderObj) (c : option ascii)
  : option ReaderObj :=
  match state r with
  | START_RECORD =>
      match c with
      | None => Some r
      | Some ch =>
          if is_newline ch then Some (set_state r EAT_CRNL)
          else start_field (set_state r START_FIELD) c
      end
  | START_FIELD => start_field r c
  | IN_FIELD =>
      match c with
      | None => Some (set_state (parse_save_field r) START_RECORD)
      | Some ch =>
          if is_newline ch then Some (set_state (parse_save_field r) EAT_CRNL)
          else if Ascii.eqb ch COMMA
               then Some (set_state (parse_save_field r) START_FIELD)
          else parse_add_char r ch
      end
  | IN_QUOTED_FIELD =>
      match c with
      | None => Some r
      | Some ch =>
          if Ascii.eqb ch QUOTE then Some (set_state r QUOTE_IN_QUOTED_FIELD)
          else parse_add_char r ch
      end
  | QUOTE_IN_QUOTED_FIELD =>
      match c with
      | None => Some (set_state (parse_save_field r) START_RECORD)
      | Some ch =>
          if Ascii.eqb ch QUOTE
          then option_map (fun r' => set_state r' IN_QUOTED_FIELD)
                          (parse_add_char r ch)
          else if Ascii.eqb ch COMMA
               then Some (set_state (parse_save_field r) START_FIELD)
          else if is_newline ch
               then Some (set_state (parse_save_field r) EAT_CRNL)
          else option_map (fun r' => set_state r' IN_FIELD) (parse_add_char r ch)
      end
  | EAT_CRNL =>
      match c with
      | None => Some (set_state r START_RECORD)
      | Some ch => if is_newline ch then Some r else None
      end
  end.

(** One line of input: its characters, then the end-of-line mark. *)
Fixpoint parse_line (r : ReaderObj) (line : string) : option ReaderObj :=
  match line with
  | EmptyString => parse_process_char r None
  | String c rest =>
      match parse_process_char r (Some c) with
      | Some r' => parse_line r' rest
      | None => None
      end
  end.

(** [list(reader)]: [Reader_iternext] called until the input is used
    up.  A record ends with the line after which the state is
    [START_RECORD]; input ending inside a record gives that record. *)
Fixpoint records (r : ReaderObj) (lines : list string)
  : option (list (list string)) :=
  match lines with
  | [] =>
      if negb (field_len r =? 0)%N || state_eqb (state r) IN_QUOTED_FIELD
      then Some [fields (parse_save_field r)]
      else Some []
  | l :: rest =>
      match parse_line r l with
      | None => None
      | Some r' =>
          if state_eqb (state r') START_RECORD
          then option_map (cons (fields r')) (records parse_reset rest)
          else records r' rest
      end
  end.

Definition reader (lines : list string) : option (list (list string)) :=
  records parse_reset lines.

End csv.

(* ================================================================== *)
(** * The two scripts *)

(** An entry of the file system: nothing there, something that exists
    but cannot be opened or decoded as text (a directory, a file
    without read permission, bytes that are not text), or a text file
    with its characters. *)
Inductive file : Type :=
| Missing
| Unreadable
| Text (content : string).

Inductive stream : Type := stdout | stderr.

(* ------------------------------------------------------------------ *)
(** ** A sample installation

    One concrete file system, environment and pair of parsers, with the
    documents they hold: the configuration of two bundles, the package
    of the first one and nothing for the second.  The statements below
    are exercised on it. *)

Module Sample.

Definition Path : Type := string.
Definition Path_of (s : string) : Path := s.
Definition joinpath (p : Path) (s : string) : Path :=
  if (s =? "")%string then p else (p ++ "/" ++ s)%string.

Definition newline : string := String LF EmptyString.
Definition quote : string := String QUOTE EmptyString.

Definition policies_db : pyval :=
  PDict [("key", PStr "policies");
         ("notion_url", PStr "https://www.notion.so/policies")].
Definition decisions_db : pyval :=
  PDict [("key", PStr "decisions"); ("notion_url", PStr "TODO:pending")].
Definition ledger_db : pyval := PDict [("key", PStr "ledger")].

Definition governance : dict :=
  [("name", PStr "Governance"); ("schema_version", PStr "1.0.0");
   ("databases", PList [policies_db; decisions_db])].
Definition finance : dict :=
  [("name", PStr "Finance"); ("databases", PList [ledger_db])].

Definition bundles : dict :=
  [("governance", PDict governance); ("finance", PDict finance)].
Definition config : dict :=
  [("defaults", PDict [("output_root", PStr "packages")]);
   ("export_bundles", PDict bundles)].

Definition policies_item : pyval :=
  PDict [("db_key", PStr "policies"); ("output", PStr "policies.csv");
         ("row_count", PInt 2)].
Definition decisions_item : pyval :=
  PDict [("db_key", PStr "decisions"); ("output", PStr "decisions.csv");
         ("row_count", PInt 5)].
Definition minutes_item : pyval :=
  PDict [("db_key", PStr "minutes"); ("output", PStr "minutes.csv");
         ("row_count", PInt 1)].

Definition audit : pyval := PDict [("chitty_id", PStr "CHITTY-GOV-0001")].

(** The manifest of the governance package, and one that also lists
    a file that was never written. *)
Definition manifest : dict :=
  [("schema_version", PStr "1.0.0");
   ("items", PList [policies_item; decisions_item]);
   ("audit", audit)].
Definition manifest_with_missing : dict :=
  [("schema_version", PStr "1.0.0");
   ("items", PList [policies_item; minutes_item; decisions_item])].

Definition pkg_dir : Path := "packages/governance".

Definition config_text : string := "governance and finance".
Definition manifest_text : string := "governance manifest".

(** Two lines after the header. *)
Definition policies_csv : string :=
  ("id,title" ++ newline ++ "1,Retention" ++ newline ++ "2,Access" ++ newline)%string.

(** One record after the header, its first field quoted and running
    over two lines. *)
Definition decisions_csv : string :=
  ("id,note" ++ newline ++
   quote ++ "first line" ++ newline ++ "second line" ++ quote ++ ",7" ++ newline)%string.

Definition fs (p : Path) : file :=
  if (p =? "chittyos-export.yaml")%string then Text config_text
  else if (p =? "packages/governance/manifest.json")%string then Text manifest_text
  else if (p =? "packages/governance/policies.csv")%string then Text policies_csv
  else if (p =? "packages/governance/decisions.csv")%string then Text decisions_csv
  else if (p =? "packages/governance")%string then Unreadable
  else Missing.

Definition environ (name : string) : option string :=
  if (name =? "NOTION_TOKEN")%string
  then Some "secret_0123456789abcdefghijklmno"
  else None.

Definition yaml_safe_load (text : string) : option pyval :=
  if (text =? config_text)%string then Some (PDict config) else None.

Definition json_loads (text : string) : option pyval :=
  if (text =? manifest_text)%string then Some (PDict manifest) else None.

(** Documents that are not of the expected shape: an item that is a
    number, a database whose [notion_url] has no value, an output root
    that is a number. *)
Definition manifest_with_number : dict :=
  [("items", PList [policies_item; PInt 3; decisions_item])].


Definition numeric_root_config : dict :=
  [("defaults", PDict [("output_root", PInt 5)])].

(** A file system for the directory check: the paths that exist.
    Nothing can be created under [/proc]. *)
Definition FS : Type := list Path.

Definition path_exists (w : FS) (p : Path) : bool := existsb (String.eqb p) w.

Definition mkdir_parents (w : FS) (p : Path) : FS * option exn :=
  if String.prefix "/proc" p then (w, Some OSError)
  else if path_exists w p then (w, None)
  else (p :: w, None).

Definition write_text (w : FS) (p : Path) (content : string) : FS * option exn :=
  if path_exists w p then (w, None) else (p :: w, None).

Definition unlink (w : FS) (p : Path) : FS * option exn :=
  if path_exists w p
  then (filter (fun q => negb (String.eqb p q)) w, None)
  else (w, Some FileNotFoundError).

End Sample.

Section World.

(** [pathlib.Path], [Path(s)] and [p / s]. *)
Variable Path : Type.
Variable Path_of : string -> Path.
Variable joinpath : Path -> string -> Path.

(** The file system, the environment ([os.getenv]) and the two
    parsers; a parser answers [None] where it raises its decode
    error ([json.JSONDecodeError], [yaml.YAMLError]). *)
Variable fs : Path -> file.
Variable environ : string -> option string.
Variable json_loads : string -> option pyval.
Variable yaml_safe_load : string -> option pyval.

(** One constructor per [print] call of the two scripts, carrying the
    values the message interpolates. *)
Inductive event : Type :=
(* load_yaml_config *)
| ConfigNotFound (path : string)
| InvalidYaml (path : string)
(* verify_bundle.py: verify_manifest *)
| ManifestNotFound (manifest_path : Path)
| ManifestLoaded (manifest_path : Path)
| InvalidJson
(* verify_csv_files *)
| NoItems
| CsvNotFound (csv_path : Path)
| RowCountMismatch (db_key row_count : pyval) (actual_count : Z)
| CsvVerified (db_key : pyval) (actual_count : Z)
| CsvReadError (csv_path : Path) (e : exn)
(* verify_chittyid_compliance *)
| NoChittyId
| ChittyIdPresent (chitty_id : pyval)
(* verify_schema_version *)
| NoSchemaVersion
| SchemaMismatch (actual_version expected_version : pyval)
| SchemaOk (actual_version : pyval)
(* verify_bundle.py: main *)
| VerifyTitle
| BundleLine (bundle : string)
| ConfigLine (config : string)
| BundleNotFound (key : string)
| CannotContinue
| Rule
| AllVerified
| ReadyForDeployment (bundle : string)
| SomeVerificationFailed
| ReviewIssues
(* preflight.py: check_notion_token *)
| TokenNotSet
| TokenTooShort
| TokenSet
(* check_bundle_config *)
| NoExportBundles
| CheckingBundle (key : string)
| MissingName
| NameOk (name : pyval)
| MissingSchemaVersion
| SchemaVersionOk (schema_version : pyval)
| NoDatabases
| DatabasesConfigured (n : nat)
| PlaceholderUrl (db_key notion_url : pyval)
| UrlConfigured (db_key : pyval)
| TodoSummary (todo_count : nat).

(** Where each message goes: [file=sys.stderr] or standard output. *)
Definition stream_of (e : event) : stream :=
  match e with
  | ConfigNotFound _ | InvalidYaml _ | ManifestNotFound _ | InvalidJson
  | NoItems | CsvNotFound _ | RowCountMismatch _ _ _ | CsvReadError _ _
  | NoChittyId | NoSchemaVersion | SchemaMismatch _ _ | BundleNotFound _
  | TokenNotSet | TokenTooShort | NoExportBundles | MissingName
  | MissingSchemaVersion | NoDatabases | PlaceholderUrl _ _
  | TodoSummary _ => stderr
  | _ => stdout
  end.

(** The computations of the scripts. *)
Definition M : Type -> Type := Py event.

(** [p.exists()]. *)
Definition exists_ (p : Path) : bool :=
  match fs p with
  | Missing => false
  | _ => true
  end.

(** [open(p, "r")] and reading all of the file as text. *)
Definition open_read (p : Path) : M string :=
  match fs p with
  | Missing => raise FileNotFoundError
  | Unreadable => raise OSError
  | Text content => ret (universal_newlines content)
  end.

(** [Path(v)] and [p / v]: [v] has to be a string. *)
Definition py_Path (v : pyval) : M Path :=
  match v with
  | PStr s => ret (Path_of s)
  | _ => raise TypeError
  end.

Definition py_truediv (p : Path) (v : pyval) : M Path :=
  match v with
  | PStr s => ret (joinpath p s)
  | _ => raise TypeError
  end.

(** [load_yaml_config] (the same in both scripts). *)
Definition load_yaml_config (path : string) : M pyval :=
  try_except
    (text <- open_read (Path_of path);;
     match yaml_safe_load text with
     | Some cfg => ret cfg
     | None => raise YAMLError
     end)
    (fun e =>
       match e with
       | FileNotFoundError => Some (print (ConfigNotFound path);;; sys_exit 1)
       | YAMLError => Some (print (InvalidYaml path);;; sys_exit 1)
       | _ => None
       end).

(* ---------------------------------------------------------------- *)
(** ** verify_bundle.py *)

(** [verify_manifest]: only [json.JSONDecodeError] is caught. *)
Definition verify_manifest (manifest_path : Path) : M (bool * pyval) :=
  if negb (exists_ manifest_path) then
    print (ManifestNotFound manifest_path);;;
    ret (false, PDict [])
  else
    try_except
      (text <- open_read manifest_path;;
       manifest <- match json_loads text with
                   | Some v => ret v
                   | None => raise JSONDecodeError
                   end;;
       print (ManifestLoaded manifest_path);;;
       ret (true, manifest))
      (fun e =>
         match e with
         | JSONDecodeError => Some (print InvalidJson;;; ret (false, PDict []))
         | _ => None
         end).

(** [list(csv.reader(f))] on the text of an open file. *)
Definition csv_rows (text : string) : M (list (list string)) :=
  match csv.reader (lines_from "" text) with
  | Some rows => ret rows
  | None => raise csv_Error
  end.

(** The body of the loop of [verify_csv_files]: the new value of
    [all_valid] after [item]. *)
Definition check_item (pkg_dir : Path) (item : pyval) (all_valid : bool)
  : M bool :=
  db_key <- py_get item "db_key" (PStr "unknown");;
  output_path <- py_get item "output" (PStr "");;
  row_count <- py_get item "row_count" (PInt 0);;
  csv_path <- py_truediv pkg_dir output_path;;
  if negb (exists_ csv_path) then
    print (CsvNotFound csv_path);;;
    ret false
  else
    try_except
      (text <- open_read csv_path;;
       rows <- csv_rows text;;
       let actual_count := (Z.of_nat (length rows) - 1)%Z in
       (if negb (py_eq (PInt actual_count) row_count)
        then print (RowCountMismatch db_key row_count actual_count)
        else ret tt);;;
       print (CsvVerified db_key actual_count);;;
       ret all_valid)
      (fun e => Some (print (CsvReadError csv_path e);;; ret false)).

Fixpoint for_item (pkg_dir : Path) (items : list pyval) (all_valid : bool)
  : M bool :=
  match items with
  | [] => ret all_valid
  | item :: rest =>
      all_valid' <- check_item pkg_dir item all_valid;;
      for_item pkg_dir rest all_valid'
  end.

Definition verify_csv_files (manifest : pyval) (pkg_dir : Path) : M bool :=
  items <- py_get manifest "items" (PList []);;
  if negb (truthy items) then
    print NoItems;;;
    ret false
  else
    elements <- py_iter items;;
    for_item pkg_dir elements true.

Definition verify_chittyid_compliance (manifest : pyval) : M bool :=
  audit <- py_get manifest "audit" (PDict []);;
  chitty_id <- py_get audit "chitty_id" PNone;;
  if negb (truthy chitty_id) then
    print NoChittyId;;;
    ret true
  else
    print (ChittyIdPresent chitty_id);;;
    ret true.

Definition verify_schema_version (manifest expected_version : pyval)
  : M bool :=
  actual_version <- py_get manifest "schema_version" PNone;;
  if negb (truthy actual_version) then
    print NoSchemaVersion;;;
    ret false
  else if negb (py_eq actual_version expected_version) then
    print (SchemaMismatch actual_version expected_version);;;
    ret false
  else
    print (SchemaOk actual_version);;;
    ret true.

(** The parsed command line of verify_bundle.py. *)
Record Args : Type := { bundle : string; config : string }.

(** [main] up to the point where the checks start (lines 118-138):
    the bundle's configuration, its package directory and the path of
    its manifest. *)
Definition main_setup (args : Args) : M (pyval * Path * Path) :=
  print VerifyTitle;;;
  print (BundleLine (bundle args));;;
  print (ConfigLine (config args));;;
  cfg <- load_yaml_config (config args);;
  bundles <- py_get cfg "export_bundles" (PDict []);;
  defaults <- py_get cfg "defaults" (PDict []);;
  found <- py_in (bundle args) bundles;;
  if negb found then
    print (BundleNotFound (bundle args));;;
    sys_exit 1
  else
    bundle_cfg <- py_getitem bundles (bundle args);;
    output_root <- py_get defaults "output_root" (PStr "packages");;
    manifest_filename <- py_get defaults "manifest_filename" (PStr "manifest.json");;
    root <- py_Path output_root;;
    let pkg_dir := joinpath root (bundle args) in
    manifest_path <- py_truediv pkg_dir manifest_filename;;
    ret (bundle_cfg, pkg_dir, manifest_path).

(** The version the configuration expects (line 155). *)
Definition expected_version_of (bundle_cfg : pyval) : M pyval :=
  py_get bundle_cfg "schema_version" (PStr "1.0.0").

(** The checks and the summary (lines 140-170). *)
Definition main_checks (args : Args) (bundle_cfg : pyval)
           (pkg_dir manifest_path : Path) : M unit :=
  let checks_passed := true in
  loaded <- verify_manifest manifest_path;;
  let manifest_valid := fst loaded in
  let manifest := snd loaded in
  let checks_passed := checks_passed && manifest_valid in
  if negb manifest_valid then
    print CannotContinue;;;
    sys_exit 1
  else
    csv_ok <- verify_csv_files manifest pkg_dir;;
    let checks_passed := checks_passed && csv_ok in
    expected_version <- expected_version_of bundle_cfg;;
    version_ok <- verify_schema_version manifest expected_version;;
    let checks_passed := checks_passed && version_ok in
    id_ok <- verify_chittyid_compliance manifest;;
    let checks_passed := checks_passed && id_ok in
    print Rule;;;
    if checks_passed then
      print AllVerified;;;
      print (ReadyForDeployment (bundle args));;;
      sys_exit 0
    else
      print SomeVerificationFailed;;;
      print ReviewIssues;;;
      sys_exit 1.

Definition main (args : Args) : M unit :=
  located <- main_setup args;;
  let '(bundle_cfg, pkg_dir, manifest_path) := located in
  main_checks args bundle_cfg pkg_dir manifest_path.

(* ---------------------------------------------------------------- *)
(** ** preflight.py *)

(** [os.getenv(name)]: the value, or [None]. *)
Definition getenv (name : string) : pyval :=
  match environ name with
  | Some s => PStr s
  | None => PNone
  end.

Definition check_notion_token : M bool :=
  let token := getenv "NOTION_TOKEN" in
  if negb (truthy token) then
    print TokenNotSet;;;
    ret false
  else
    n <- py_len token;;
    if (n <? 20)%nat then
      print TokenTooShort;;;
      ret false
    else
      print TokenSet;;;
      ret true.

(** The body of the loop over the databases of a bundle: the new
    value of [todo_count] after [db]. *)
Definition check_db (db : pyval) (todo_count : nat) : M nat :=
  db_key <- py_get db "key" (PStr "unknown");;
  notion_url <- py_get db "notion_url" (PStr "");;
  placeholder <- py_startswith notion_url "TODO:";;
  if placeholder then
    print (PlaceholderUrl db_key notion_url);;;
    ret (todo_count + 1)%nat
  else
    print (UrlConfigured db_key);;;
    ret todo_count.

Fixpoint for_db (databases : list pyval) (todo_count : nat) : M nat :=
  match databases with
  | [] => ret todo_count
  | db :: rest =>
      todo_count' <- check_db db todo_count;;
      for_db rest todo_count'
  end.

(** The body of the loop over [keys_to_check]: the new value of
    [all_valid] after [key]. *)
Definition check_key (bundles : pyval) (key : string) (all_valid : bool)
  : M bool :=
  found <- py_in key bundles;;
  if negb found then
    print (BundleNotFound key);;;
    ret false
  else
    bundle <- py_getitem bundles key;;
    print (CheckingBundle key);;;
    has_name <- py_in "name" bundle;;
    all_valid <- (if negb has_name then
                    print MissingName;;;
                    ret false
                  else
                    name <- py_getitem bundle "name";;
                    print (NameOk name);;;
                    ret all_valid);;
    has_version <- py_in "schema_version" bundle;;
    all_valid <- (if negb has_version then
                    print MissingSchemaVersion;;;
                    ret false
                  else
                    schema_version <- py_getitem bundle "schema_version";;
                    print (SchemaVersionOk schema_version);;;
                    ret all_valid);;
    databases <- py_get bundle "databases" (PList []);;
    if negb (truthy databases) then
      print NoDatabases;;;
      ret false
    else
      n <- py_len databases;;
      print (DatabasesConfigured n);;;
      elements <- py_iter databases;;
      todo_count <- for_db elements 0;;
      (if (0 <? todo_count)%nat
       then print (TodoSummary todo_count)
       else ret tt);;;
      ret all_valid.

Fixpoint for_key (bundles : pyval) (keys_to_check : list string)
         (all_valid : bool) : M bool :=
  match keys_to_check with
  | [] => ret all_valid
  | key :: rest =>
      all_valid' <- check_key bundles key all_valid;;
      for_key bundles rest all_valid'
  end.

(** [bundle_key] is [None] when [--bundle] was not given. *)
Definition check_bundle_config (cfg : pyval) (bundle_key : option string)
  : M bool :=
  bundles <- py_get cfg "export_bundles" (PDict []);;
  if negb (truthy bundles) then
    print NoExportBundles;;;
    ret false
  else
    keys_to_check <- match bundle_key with
                     | Some key =>
                         if truthy (PStr key) then ret [key]
                         else py_keys bundles
                     | None => py_keys bundles
                     end;;
    for_key bundles keys_to_check true.

(* ---------------------------------------------------------------- *)
(** ** The documents the scripts expect

    The data model of the two tools gives the documents a shape; the
    functions raise [AttributeError] or [TypeError] on other ones.
    Every field may be absent, as the code reads each one with a
    default. *)

(** [d.get(k, default)] on a dict. *)
Definition get_default (d : dict) (k : string) (default : pyval) : pyval :=
  match lookup k d with
  | Some v => v
  | None => default
  end.

(** A manifest item: a mapping whose [output], when given, is a string. *)
Definition item_shape (item : pyval) : bool :=
  match item with
  | PDict d =>
      match lookup "output" d with
      | None | Some (PStr _) => true
      | Some _ => false
      end
  | _ => false
  end.

(** The [audit] section of a manifest, when given, is a mapping. *)
Definition audit_shape (manifest : dict) : bool :=
  match lookup "audit" manifest with
  | None | Some (PDict _) => true
  | Some _ => false
  end.

(** A database entry: a mapping whose [notion_url], when given, is a
    string. *)
Definition db_shape (db : pyval) : bool :=
  match db with
  | PDict d =>
      match lookup "notion_url" d with
      | None | Some (PStr _) => true
      | Some _ => false
      end
  | _ => false
  end.

(** A bundle definition: a mapping whose [databases], when given and
    not empty, is a sequence of database entries. *)
Definition bundle_shape (bundle : pyval) : bool :=
  match bundle with
  | PDict b =>
      match get_default b "databases" (PList []) with
      | PList dbs => forallb db_shape dbs
      | v => negb (truthy v)
      end
  | _ => false
  end.

(** A configuration: a mapping whose [export_bundles], when given and
    not empty, maps bundle keys to bundle definitions. *)
Definition config_shape (cfg : dict) : bool :=
  match get_default cfg "export_bundles" (PDict []) with
  | PDict bundles => forallb (fun kv => bundle_shape (snd kv)) bundles
  | v => negb (truthy v)
  end.

(** The fields of an item and of a database entry, with the defaults
    of the code. *)
Definition item_output (item : pyval) : string :=
  match item with
  | PDict d => match lookup "output" d with Some (PStr s) => s | _ => "" end
  | _ => ""
  end.

Definition item_db_key (item : pyval) : pyval :=
  match item with
  | PDict d => get_default d "db_key" (PStr "unknown")
  | _ => PStr "unknown"
  end.

Definition item_row_count (item : pyval) : pyval :=
  match item with
  | PDict d => get_default d "row_count" (PInt 0)
  | _ => PInt 0
  end.

Definition db_key_of (db : pyval) : pyval :=
  match db with
  | PDict d => get_default d "key" (PStr "unknown")
  | _ => PStr "unknown"
  end.

Definition notion_url_of (db : pyval) : pyval :=
  match db with
  | PDict d => get_default d "notion_url" (PStr "")
  | _ => PStr ""
  end.

(** A file that exists and is read without error: it opens as text
    and the reader accepts all of it. *)
Definition reads_ok (p : Path) : bool :=
  match fs p with
  | Text content =>
      match csv.reader (file_lines content) with
      | Some _ => true
      | None => false
      end
  | _ => false
  end.

(** What the data-file check prints for one item. *)
Definition item_report (pkg_dir : Path) (item : pyval) : list event :=
  let csv_path := joinpath pkg_dir (item_output item) in
  match fs csv_path with
  | Missing => [CsvNotFound csv_path]
  | Unreadable => [CsvReadError csv_path OSError]
  | Text content =>
      match csv.reader (file_lines content) with
      | None => [CsvReadError csv_path csv_Error]
      | Some rows =>
          let actual_count := (Z.of_nat (length rows) - 1)%Z in
          (if py_eq (PInt actual_count) (item_row_count item) then []
           else [RowCountMismatch (item_db_key item) (item_row_count item)
                                  actual_count])
          ++ [CsvVerified (item_db_key item) actual_count]
      end
  end.

(** A placeholder entry: its URL starts with the marker. *)
Definition is_todo (db : pyval) : bool :=
  match notion_url_of db with
  | PStr url => startswith url "TODO:"
  | _ => false
  end.

(** The warning for a placeholder entry. *)
Definition placeholder_warning (db : pyval) : event :=
  PlaceholderUrl (db_key_of db) (notion_url_of db).

(** A database entry with no URL: [notion_url] absent or empty. *)
Definition no_url (db : pyval) : bool :=
  match db with
  | PDict d =>
      match lookup "notion_url" d with
      | None => true
      | Some (PStr url) => (url =? "")%string
      | Some _ => false
      end
  | _ => false
  end.

(** What the bundle check prints for one database entry. *)
Definition db_report (db : pyval) : event :=
  if is_todo db then PlaceholderUrl (db_key_of db) (notion_url_of db)
  else UrlConfigured (db_key_of db).

(** What it prints for the databases of a bundle. *)
Definition databases_report (databases : pyval) : list event :=
  if truthy databases then
    match databases with
    | PList dbs =>
        DatabasesConfigured (length dbs) :: map db_report dbs ++
        (if (0 <? length (filter is_todo dbs))%nat
         then [TodoSummary (length (filter is_todo dbs))]
         else [])
    | _ => []
    end
  else [NoDatabases].

(** What it prints for one key of [keys_to_check]. *)
Definition key_report (bundles : dict) (key : string) : list event :=
  match lookup key bundles with
  | Some (PDict b) =>
      CheckingBundle key ::
      match lookup "name" b with
      | Some name => NameOk name
      | None => MissingName
      end ::
      match lookup "schema_version" b with
      | Some schema_version => SchemaVersionOk schema_version
      | None => MissingSchemaVersion
      end ::
      databases_report (get_default b "databases" (PList []))
  | Some _ => []
  | None => [BundleNotFound key]
  end.

(** The bundle map of a configuration (empty when there is none). *)
Definition bundles_of (cfg : dict) : dict :=
  match lookup "export_bundles" cfg with
  | Some (PDict bundles) => bundles
  | _ => []
  end.

(** The keys the bundle check looks at: the filter when one is given
    (an empty [--bundle] counts as none), else every key in the order
    of the configuration. *)
Definition checked_keys (bundles : dict) (bundle_key : option string)
  : list string :=
  match bundle_key with
  | Some key => if (key =? "")%string then keys bundles else [key]
  | None => keys bundles
  end.

(** The database entries of the bundle at [key]. *)
Definition databases_at (bundles : dict) (key : string) : list pyval :=
  match lookup key bundles with
  | Some (PDict b) =>
      match get_default b "databases" (PList []) with
      | PList dbs => dbs
      | _ => []
      end
  | _ => []
  end.

(** A hard failure at [key]: the key is not in the bundle map, or its
    bundle has no [name], no [schema_version] or no database. *)
Definition hard_failure (bundles : dict) (key : string) : bool :=
  match lookup key bundles with
  | Some (PDict b) =>
      match lookup "name" b, lookup "schema_version" b with
      | Some _, Some _ => negb (truthy (get_default b "databases" (PList [])))
      | _, _ => true
      end
  | _ => true
  end.

Definition is_placeholder_warning (e : event) : bool :=
  match e with
  | PlaceholderUrl _ _ => true
  | _ => false
  end.

Definition is_todo_summary (e : event) : bool :=
  match e with
  | TodoSummary _ => true
  | _ => false
  end.

(** A text with no quote character in it. *)
Fixpoint unquoted (s : string) : bool :=
  match s with
  | EmptyString => true
  | String c rest => negb (Ascii.eqb c QUOTE) && unquoted rest
  end.

(** The states of the reader inside a quoted field. *)
Definition in_quotes (s : csv.ParserState) : bool :=
  match s with
  | csv.IN_QUOTED_FIELD | csv.QUOTE_IN_QUOTED_FIELD => true
  | _ => false
  end.

(* ---------------------------------------------------------------- *)
(** ** preflight.py: the output directory and [main]

    [check_output_directories] is the one function of the two scripts
    that writes: it creates the output directory and a probe file in
    it, and deletes the probe.  Its computations thread the state of
    the file system; an operation that raises leaves the state it had
    reached.  The configuration is read before anything is written, so
    [load_yaml_config] still reads it from [fs]. *)

(** The file system as the directory check sees it: its states,
    [p.exists()], and the three operations with the state they leave
    and the exception they raise, if any. *)
Variable FS : Type.
Variable path_exists : FS -> Path -> bool.
Variable mkdir_parents : FS -> Path -> FS * option exn.
Variable write_text : FS -> Path -> string -> FS * option exn.
Variable unlink : FS -> Path -> FS * option exn.

(** The lines only preflight.py prints. *)
Inductive preflight_line : Type :=
(* check_output_directories *)
| OutputDirAbsent (output_root : pyval)
| OutputDirExists (output_root : pyval)
| WriteVerified (output_root : pyval)
| CannotWrite (output_root : pyval) (e : exn)
(* main *)
| PreflightTitle
| PreflightConfig (config : string)
| PreflightBundle (bundle : string)
| BlankLine
| PreflightRule
| AllPreflightPassed
| ReadyToExport
| SomePreflightFailed
| FixIssues.

(** A line of preflight.py: one of the checks above, or one of its own. *)
Definition line : Type := event + preflight_line.


(** A computation on the file system: from a state, the state it
    leaves, what it printed and how it ended. *)
Definition StPy (A : Type) : Type := FS -> FS * Py line A.

Definition sret {A} (a : A) : StPy A := fun w => (w, ret a).

Definition sbind {A B} (m : StPy A) (f : A -> StPy B) : StPy B :=
  fun w =>
    let r := m w in
    match snd (snd r) with
    | Ret a =>
        let r' := f a (fst r) in
        (fst r', (fst (snd r) ++ fst (snd r'), snd (snd r')))
    | Raise e => (fst r, (fst (snd r), Raise e))
    | Exit c => (fst r, (fst (snd r), Exit c))
    end.

(** A computation of the checks above, which leaves the state alone. *)
Definition lift {A} (m : M A) : StPy A :=
  fun w => (w, (map inl (fst m), snd m)).

Definition say (l : preflight_line) : StPy unit :=
  fun w => (w, print (inr l)).

Definition sexit {A} (code : Z) : StPy A := fun w => (w, sys_exit code).

(** An operation of the file system, raising what it raises. *)
Definition effect (op : FS -> FS * option exn) : StPy unit :=
  fun w =>
    (fst (op w),
     match snd (op w) with
     | None => ret tt
     | Some e => raise e
     end).

(** [try: m  except ...: h] keeps the state [m] had reached. *)
Definition stry_except {A} (m : StPy A) (h : exn -> option (StPy A))
  : StPy A :=
  fun w =>
    let r := m w in
    match snd (snd r) with
    | Raise e =>
        match h e with
        | Some k =>
            let r' := k (fst r) in
            (fst r', (fst (snd r) ++ fst (snd r'), snd (snd r')))
        | None => r
        end
    | _ => r
    end.

Declare Scope stpy_scope.
Delimit Scope stpy_scope with stpy.
Notation "x <- m ;; k" := (sbind m (fun x => k))
  (at level 61, m at next level, right associativity) : stpy_scope.
Notation "m ;;; k" := (sbind m (fun _ => k))
  (at level 61, right associativity) : stpy_scope.

Definition check_output_directories (cfg : pyval) : StPy bool :=
  (defaults <- lift (py_get cfg "defaults" (PDict []));;
   output_root <- lift (py_get defaults "output_root" (PStr "packages"));;
   root <- lift (py_Path output_root);;
   (fun w => (if negb (path_exists w root)
              then say (OutputDirAbsent output_root)
              else say (OutputDirExists output_root)) w);;;
   stry_except
     (test_path <- lift (py_Path output_root);;
      effect (fun w => mkdir_parents w test_path);;;
      let test_file := joinpath test_path ".preflight_test" in
      effect (fun w => write_text w test_file "test");;;
      effect (fun w => unlink w test_file);;;
      say (WriteVerified output_root);;;
      sret true)
     (fun e => Some (say (CannotWrite output_root e);;; sret false)))%stpy.

(** The parsed command line of preflight.py; [--bundle] is optional. *)
Record PreflightArgs : Type := {
  preflight_config : string;
  preflight_bundle : option string
}.

(** [main] of preflight.py. *)
Definition preflight_main (args : PreflightArgs) : StPy unit :=
  (say PreflightTitle;;;
   say (PreflightConfig (preflight_config args));;;
   match preflight_bundle args with
   | Some b => if truthy (PStr b) then say (PreflightBundle b) else sret tt
   | None => sret tt
   end;;;
   say BlankLine;;;
   cfg <- lift (load_yaml_config (preflight_config args));;
   let checks_passed := true in
   token_ok <- lift check_notion_token;;
   let checks_passed := checks_passed && token_ok in
   bundles_ok <- lift (check_bundle_config cfg (preflight_bundle args));;
   let checks_passed := checks_passed && bundles_ok in
   dirs_ok <- check_output_directories cfg;;
   let checks_passed := checks_passed && dirs_ok in
   say PreflightRule;;;
   if checks_passed then
     say AllPreflightPassed;;;
     say ReadyToExport;;;
     sexit 0
   else
     say SomePreflightFailed;;;
     say FixIssues;;;
     sexit 1)%stpy.

(** What a run leaves, prints and ends with. *)
Definition final_state {A} (r : FS * Py line A) : FS := fst r.
Definition printed {A} (r : FS * Py line A) : list line := fst (snd r).
Definition ended {A} (r : FS * Py line A) : outcome A := snd (snd r).

(* ---------------------------------------------------------------- *)
(** ** Readings of the output *)

(** The verdict lines of the data-file check: one per item handled. *)
Definition is_item_verdict (e : event) : bool :=
  match e with
  | CsvVerified _ _ | CsvNotFound _ | CsvReadError _ _ => true
  | _ => false
  end.

(** The bundle keys the bundle check announces, in order. *)
Definition announced_key (e : event) : option string :=
  match e with
  | CheckingBundle key => Some key
  | _ => None
  end.

Fixpoint announced_keys (out : list event) : list string :=
  match out with
  | [] => []
  | e :: rest =>
      match announced_key e with
      | Some key => key :: announced_keys rest
      | None => announced_keys rest
      end
  end.

(** [key in d] for a dict. *)
Definition has_key (d : dict) (key : string) : bool :=
  match lookup key d with
  | Some _ => true
  | None => false
  end.

(** The identifier of a manifest: [audit.chitty_id], [None] when there
    is none. *)
Definition chitty_id_of (manifest : dict) : pyval :=
  match get_default manifest "audit" (PDict []) with
  | PDict audit => get_default audit "chitty_id" PNone
  | _ => PNone
  end.

(** The three lines [main] of verify_bundle.py starts with. *)
Definition verify_heading (args : Args) : list event :=
  [VerifyTitle; BundleLine (bundle args); ConfigLine (config args)].

(** The lines it ends with. *)
Definition verify_summary (args : Args) (checks_passed : bool) : list event :=
  Rule ::
  (if checks_passed
   then [AllVerified; ReadyForDeployment (bundle args)]
   else [SomeVerificationFailed; ReviewIssues]).

(** The probe of the directory check: create the directory, write the
    probe file, delete it, stopping at the first operation that
    raises; the state reached and the exception, if any. *)
Definition probe (w : FS) (root : Path) : FS * option exn :=
  let made := mkdir_parents w root in
  match snd made with
  | Some e => (fst made, Some e)
  | None =>
      let written := write_text (fst made) (joinpath root ".preflight_test") "test" in
      match snd written with
      | Some e => (fst written, Some e)
      | None => unlink (fst written) (joinpath root ".preflight_test")
      end
  end.

(** The lines [main] of preflight.py starts with and ends with. *)
Definition preflight_heading (args : PreflightArgs) : list line :=
  [inr PreflightTitle; inr (PreflightConfig (preflight_config args))] ++
  match preflight_bundle args with
  | Some b => if (b =? "")%string then [] else [inr (PreflightBundle b)]
  | None => []
  end ++
  [inr BlankLine].

Definition preflight_summary (checks_passed : bool) : list line :=
  inr PreflightRule ::
  (if checks_passed
   then [inr AllPreflightPassed; inr ReadyToExport]
   else [inr SomePreflightFailed; inr FixIssues]).

(* ---------------------------------------------------------------- *)
(** ** How a computation ends *)



(* ================================================================ *)
(** * Properties *)

(** ** Laws of [Py] *)

Lemma bind_Ret {A B} (m : M A) (f : A -> M B) (a : A) (l : list event) :
  m = (l, Ret a) -> bind m f = (l ++ output (f a), result (f a)).
Proof. intros ->. reflexivity. Qed.

Lemma bind_Raise {A B} (m : M A) (f : A -> M B) (e : exn) (l : list event) :
  m = (l, Raise e) -> bind m f = (l, Raise e).
Proof. intros ->. reflexivity. Qed.

Lemma bind_Exit {A B} (m : M A) (f : A -> M B) (c : Z) (l : list event) :
  m = (l, Exit c) -> bind m f = (l, Exit c).
Proof. intros ->. reflexivity. Qed.

Lemma bind_ret {A B} (a : A) (f : A -> M B) : bind (ret a) f = f a.
Proof. unfold bind, ret; simpl. destruct (f a); reflexivity. Qed.

Lemma bind_print {B} (e : event) (f : unit -> M B) :
  bind (print e) f = (e :: output (f tt), result (f tt)).
Proof. reflexivity. Qed.

Lemma bind_assoc {A B C} (m : M A) (f : A -> M B) (g : B -> M C) :
  bind (bind m f) g = bind m (fun x => bind (f x) g).
Proof.
  destruct m as [l [a| |]]; try reflexivity.
  unfold bind; cbn [fst snd]. destruct (f a) as [l' [b| |]]; cbn [fst snd];
    rewrite ?app_assoc; reflexivity.
Qed.

Lemma bind_print_ret {A B} (e : event) (a : A) (k : A -> M B) :
  bind (bind (print e) (fun _ => ret a)) k = (e :: output (k a), result (k a)).
Proof. reflexivity. Qed.

Lemma Py_eta {A} (m : M A) : m = (output m, result m).
Proof. destruct m; reflexivity. Qed.

(** Runs a computation as far as its values are known. *)
Ltac py_run :=
  repeat first
    [ rewrite bind_ret
    | progress cbn [py_get py_in py_getitem py_keys py_len py_iter
                    py_startswith py_Path py_truediv negb] ].

(** ** The credential check *)

(** C7: the credential check returns false when [NOTION_TOKEN] is not
    set or its value has fewer than 20 characters, and true when the
    value has 20 characters or more. *)
Theorem check_notion_token_length :
  result check_notion_token =
  Ret (match environ "NOTION_TOKEN" with
       | None => false
       | Some token => (20 <=? String.length token)%nat
       end).
Proof.
  unfold check_notion_token, getenv.
  destruct (environ "NOTION_TOKEN") as [token|]; [|reflexivity].
  destruct token as [|c token]; [reflexivity|].
  cbn [truthy String.eqb negb py_len].
  rewrite bind_ret.
  destruct (Nat.ltb_spec (String.length (String c token)) 20) as [Hlt|Hge].
  - cbn [result snd bind print ret fst]. f_equal. symmetry.
    apply Nat.leb_gt. exact Hlt.
  - cbn [result snd bind print ret fst]. f_equal. symmetry.
    apply Nat.leb_le. exact Hge.
Qed.

(** ** The identifier check *)

Lemma verify_chittyid_compliance_not_false (manifest : pyval) :
  result (verify_chittyid_compliance manifest) <> Ret false.
Proof.
  unfold verify_chittyid_compliance.
  destruct manifest as [| | | | |d]; try discriminate.
  cbn [py_get]. rewrite bind_ret.
  destruct (match lookup "audit" d with Some x => x | None => PDict [] end)
    as [| | | | |a]; try discriminate.
  cbn [py_get]. rewrite bind_ret.
  destruct (negb (truthy _)); discriminate.
Qed.

(** C8: the identifier check returns true for every manifest, with or
    without a [chitty_id] under [audit]; on no document at all does
    it return false. *)
Theorem verify_chittyid_compliance_true :
  (forall manifest : dict,
      audit_shape manifest = true ->
      result (verify_chittyid_compliance (PDict manifest)) = Ret true) /\
  (forall manifest : pyval,
      result (verify_chittyid_compliance manifest) <> Ret false).
Proof.
  split; [|exact verify_chittyid_compliance_not_false].
  intros d Hshape. unfold verify_chittyid_compliance, audit_shape in *.
  cbn [py_get]. rewrite bind_ret.
  destruct (lookup "audit" d) as [[| | | | |a]|]; try discriminate;
    cbn [py_get]; rewrite bind_ret;
    destruct (negb (truthy _)); reflexivity.
Qed.

(** ** The schema version check *)

Lemma verify_schema_version_falsy (manifest : dict) (expected : pyval) :
  truthy (get_default manifest "schema_version" PNone) = false ->
  verify_schema_version (PDict manifest) expected = ([NoSchemaVersion], Ret false).
Proof.
  intros H. unfold verify_schema_version, get_default in *.
  cbn [py_get]. rewrite bind_ret, H. reflexivity.
Qed.

Lemma verify_schema_version_truthy (manifest : dict) (expected : pyval) :
  truthy (get_default manifest "schema_version" PNone) = true ->
  verify_schema_version (PDict manifest) expected =
  let actual := get_default manifest "schema_version" PNone in
  if py_eq actual expected then ([SchemaOk actual], Ret true)
  else ([SchemaMismatch actual expected], Ret false).
Proof.
  intros H. unfold verify_schema_version, get_default in *.
  cbn [py_get]. rewrite bind_ret, H. cbn [negb].
  destruct (py_eq _ expected); reflexivity.
Qed.

(** C10: a [schema_version] that is there but falsy (the empty string,
    [null], zero, ...) takes the branch of the missing version: the
    check prints that the manifest has no schema_version, and nothing
    else, and returns false. *)
Theorem verify_schema_version_falsy_is_missing
        (manifest : dict) (v expected : pyval) :
  lookup "schema_version" manifest = Some v ->
  truthy v = false ->
  verify_schema_version (PDict manifest) expected =
  ([NoSchemaVersion], Ret false).
Proof.
  intros Hv Hfalsy. apply verify_schema_version_falsy.
  unfold get_default. rewrite Hv. exact Hfalsy.
Qed.

(** C2, amended: for a manifest whose [schema_version] is a string
    that is not empty and an expected version string, the check
    returns true when the two are equal and false when they differ;
    with no [schema_version] in the manifest it returns false; the
    expected version is the bundle's, ["1.0.0"] when it gives none. *)
Theorem verify_schema_version_nonempty :
  (forall (manifest : dict) (actual expected : string),
      lookup "schema_version" manifest = Some (PStr actual) ->
      actual <> "" ->
      result (verify_schema_version (PDict manifest) (PStr expected)) =
      Ret (actual =? expected)%string) /\
  (forall (manifest : dict) (expected : pyval),
      lookup "schema_version" manifest = None ->
      result (verify_schema_version (PDict manifest) expected) = Ret false) /\
  (forall bundle_cfg : dict,
      result (expected_version_of (PDict bundle_cfg)) =
      Ret (get_default bundle_cfg "schema_version" (PStr "1.0.0"))).
Proof.
  split; [|split].
  - intros d a e Hv Hne.
    rewrite verify_schema_version_truthy; unfold get_default; rewrite Hv.
    + cbn [py_eq]. destruct (a =? e)%string; reflexivity.
    + cbn [truthy]. destruct (String.eqb_spec a ""); [contradiction|reflexivity].
  - intros d e Hv. rewrite verify_schema_version_falsy; [reflexivity|].
    unfold get_default. rewrite Hv. reflexivity.
  - intros b. reflexivity.
Qed.

(** ** The data-file check *)

Lemma check_item_spec (pkg_dir : Path) (item : pyval) (all_valid : bool) :
  item_shape item = true ->
  check_item pkg_dir item all_valid =
  (item_report pkg_dir item,
   Ret (all_valid && reads_ok (joinpath pkg_dir (item_output item)))).
Proof.
  intros Hshape. destruct item as [| | | | |d]; try discriminate.
  unfold check_item, item_report, reads_ok, item_db_key, item_row_count,
    get_default, exists_, open_read, csv_rows, file_lines.
  cbn [py_get item_output]. rewrite !bind_ret.
  cbn [item_shape] in Hshape.
  assert (Hout : match lookup "output" d with
                 | Some x => x | None => PStr "" end =
                 PStr (match lookup "output" d with
                       | Some (PStr s) => s | _ => "" end)).
  { destruct (lookup "output" d) as [[| | |s| |]|]; try discriminate; reflexivity. }
  rewrite Hout. cbn [py_truediv]. rewrite bind_ret.
  destruct (fs _) as [| |content]; cbn [negb]; try reflexivity.
  - rewrite andb_false_r. reflexivity.
  - rewrite andb_false_r. reflexivity.
  - rewrite bind_ret.
    destruct (csv.reader _) as [rows|].
    + rewrite bind_ret, andb_true_r.
      destruct (py_eq _ _); reflexivity.
    + rewrite andb_false_r. reflexivity.
Qed.

Lemma for_item_spec (pkg_dir : Path) (items : list pyval) :
  forallb item_shape items = true ->
  forall all_valid : bool,
    for_item pkg_dir items all_valid =
    (flat_map (item_report pkg_dir) items,
     Ret (all_valid &&
          forallb (fun item => reads_ok (joinpath pkg_dir (item_output item)))
                  items)).
Proof.
  induction items as [|item rest IH]; intros Hshape all_valid.
  - cbn. rewrite andb_true_r. reflexivity.
  - cbn [forallb] in Hshape. apply andb_prop in Hshape as [Hitem Hrest].
    cbn [for_item flat_map forallb].
    rewrite (bind_Ret _ _ _ _ (check_item_spec pkg_dir item all_valid Hitem)).
    rewrite (IH Hrest). cbn [output result fst snd].
    rewrite andb_assoc. reflexivity.
Qed.

Lemma verify_csv_files_spec (manifest : dict) (pkg_dir : Path)
      (items : list pyval) :
  get_default manifest "items" (PList []) = PList items ->
  forallb item_shape items = true ->
  verify_csv_files (PDict manifest) pkg_dir =
  match items with
  | [] => ([NoItems], Ret false)
  | _ =>
      (flat_map (item_report pkg_dir) items,
       Ret (forallb (fun item => reads_ok (joinpath pkg_dir (item_output item)))
                    items))
  end.
Proof.
  intros Hitems Hshape. unfold verify_csv_files, get_default in *.
  cbn [py_get]. rewrite bind_ret, Hitems.
  destruct items as [|item rest]; [reflexivity|].
  cbn [truthy length Nat.eqb negb py_iter]. rewrite bind_ret.
  rewrite (for_item_spec _ _ Hshape). reflexivity.
Qed.

(** ** The reader on text without quotes *)

Lemma unquoted_app (a b : string) :
  unquoted (a ++ b) = unquoted a && unquoted b.
Proof.
  induction a as [|c a IH]; [reflexivity|].
  cbn. rewrite IH, andb_assoc. reflexivity.
Qed.

Lemma universal_newlines_unquoted_le (n : nat) :
  forall s : string,
    (String.length s <= n)%nat ->
    unquoted s = true -> unquoted (universal_newlines s) = true.
Proof.
  induction n as [|n IH]; intros s Hlen Hs.
  - destruct s; [reflexivity|cbn in Hlen; lia].
  - destruct s as [|c rest]; [reflexivity|].
    cbn [unquoted] in Hs. apply andb_prop in Hs as [Hc Hrest].
    cbn [String.length] in Hlen. cbn [universal_newlines].
    destruct (Ascii.eqb c CR).
    + destruct rest as [|c' rest']; [reflexivity|].
      cbn [unquoted] in Hrest. apply andb_prop in Hrest as [Hc' Hrest'].
      cbn [String.length] in Hlen.
      destruct (Ascii.eqb c' LF); cbn [unquoted].
      * rewrite (IH rest'); [reflexivity|lia|exact Hrest'].
      * rewrite (IH (String c' rest')); [reflexivity|cbn; lia|].
        cbn [unquoted]. rewrite Hc', Hrest'. reflexivity.
    + cbn [unquoted]. rewrite Hc, (IH rest); [reflexivity|lia|exact Hrest].
Qed.

Lemma universal_newlines_unquoted (s : string) :
  unquoted s = true -> unquoted (universal_newlines s) = true.
Proof. apply (universal_newlines_unquoted_le (String.length s)). lia. Qed.

Lemma lines_from_unquoted (s : string) :
  forall cur : string,
    unquoted cur = true -> unquoted s = true ->
    Forall (fun line => unquoted line = true) (lines_from cur s).
Proof.
  induction s as [|c rest IH]; intros cur Hcur Hs; cbn [lines_from].
  - destruct (cur =? "")%string; [constructor|].
    constructor; [exact Hcur|constructor].
  - cbn [unquoted] in Hs. apply andb_prop in Hs as [Hc Hrest].
    destruct (Ascii.eqb c LF).
    + constructor.
      * rewrite unquoted_app, Hcur. reflexivity.
      * apply IH; [reflexivity|exact Hrest].
    + apply IH; [|exact Hrest].
      rewrite unquoted_app, Hcur. cbn [unquoted]. rewrite Hc. reflexivity.
Qed.

Lemma parse_add_char_state (r r' : csv.ReaderObj) (c : ascii) :
  csv.parse_add_char r c = Some r' -> csv.state r' = csv.state r.
Proof.
  unfold csv.parse_add_char.
  destruct (csv.field_limit <=? csv.field_len r)%N; [discriminate|].
  intros [= <-]. reflexivity.
Qed.

Lemma parse_process_char_unquoted (r r' : csv.ReaderObj) (c : ascii) :
  in_quotes (csv.state r) = false ->
  Ascii.eqb c QUOTE = false ->
  csv.parse_process_char r (Some c) = Some r' ->
  in_quotes (csv.state r') = false.
Proof.
  intros Hstate Hc.
  unfold csv.parse_process_char, csv.start_field.
  destruct (csv.state r) eqn:Hs; try discriminate; rewrite ?Hc;
    repeat match goal with
           | |- context [if ?b then _ else _] => destruct b
           end;
    try discriminate;
    try (intros [= <-]; cbn [csv.state csv.set_state csv.parse_save_field];
         rewrite ?Hs; reflexivity);
    match goal with
    | |- context [csv.parse_add_char ?x c] =>
        destruct (csv.parse_add_char x c) as [r0|] eqn:Hadd;
        [apply parse_add_char_state in Hadd|discriminate]
    end;
    cbn [option_map]; intros [= <-]; cbn [csv.state csv.set_state];
    try reflexivity.
  rewrite Hadd, Hs. reflexivity.
Qed.

Lemma parse_process_char_EOL_unquoted (r r' : csv.ReaderObj) :
  in_quotes (csv.state r) = false ->
  csv.parse_process_char r None = Some r' ->
  csv.state r' = csv.START_RECORD.
Proof.
  intros Hstate. unfold csv.parse_process_char, csv.start_field.
  destruct (csv.state r) eqn:Hs; try discriminate;
    intros [= <-]; try reflexivity. exact Hs.
Qed.

Lemma parse_line_unquoted (line : string) :
  forall r r' : csv.ReaderObj,
    unquoted line = true ->
    in_quotes (csv.state r) = false ->
    csv.parse_line r line = Some r' ->
    csv.state r' = csv.START_RECORD.
Proof.
  induction line as [|c rest IH]; intros r r' Hline Hstate; cbn [csv.parse_line].
  - apply parse_process_char_EOL_unquoted. exact Hstate.
  - cbn [unquoted] in Hline. apply andb_prop in Hline as [Hc Hrest].
    apply negb_true_iff in Hc.
    destruct (csv.parse_process_char r (Some c)) as [r1|] eqn:Hstep;
      [|discriminate].
    apply IH; [exact Hrest|].
    exact (parse_process_char_unquoted _ _ _ Hstate Hc Hstep).
Qed.

(** Without quotes every line is one record. *)
Lemma reader_unquoted (lines : list string) :
  Forall (fun line => unquoted line = true) lines ->
  forall rows : list (list string),
    csv.reader lines = Some rows -> length rows = length lines.
Proof.
  unfold csv.reader.
  induction 1 as [|line rest Hline Hrest IH]; intros rows; cbn [csv.records].
  - cbn. intros [= <-]. reflexivity.
  - destruct (csv.parse_line csv.parse_reset line) as [r'|] eqn:Hparse;
      [|discriminate].
    rewrite (parse_line_unquoted line csv.parse_reset r' Hline eq_refl Hparse).
    cbn [csv.state_eqb].
    destruct (csv.records csv.parse_reset rest) as [rows'|]; [|discriminate].
    cbn [option_map]. intros [= <-]. cbn [length]. rewrite (IH rows' eq_refl).
    reflexivity.
Qed.

Lemma file_lines_unquoted (content : string) (rows : list (list string)) :
  unquoted content = true ->
  csv.reader (file_lines content) = Some rows ->
  length rows = length (file_lines content).
Proof.
  intros Hq. apply reader_unquoted. unfold file_lines.
  apply lines_from_unquoted; [reflexivity|].
  apply universal_newlines_unquoted. exact Hq.
Qed.

(** ** Claims about the data-file check *)

Lemma forallb_reads_ok_map (pkg_dir : Path) (items : list pyval) :
  forallb (fun item => reads_ok (joinpath pkg_dir (item_output item))) items =
  forallb (fun o => reads_ok (joinpath pkg_dir o)) (map item_output items).
Proof.
  induction items as [|item rest IH]; [reflexivity|].
  cbn [forallb map]. rewrite IH. reflexivity.
Qed.

(** C1: the data-file check returns true exactly when the manifest
    has at least one item and the file of every item exists and is
    read without error.  The recorded row counts play no part: two
    manifests whose items name the same files get the same answer. *)
Theorem verify_csv_files_true_iff
        (manifest : dict) (pkg_dir : Path) (items : list pyval) :
  get_default manifest "items" (PList []) = PList items ->
  forallb item_shape items = true ->
  (exists valid : bool,
      result (verify_csv_files (PDict manifest) pkg_dir) = Ret valid /\
      (valid = true <->
       items <> [] /\
       Forall (fun item =>
                 reads_ok (joinpath pkg_dir (item_output item)) = true)
              items)) /\
  (forall (manifest' : dict) (items' : list pyval),
      get_default manifest' "items" (PList []) = PList items' ->
      forallb item_shape items' = true ->
      map item_output items' = map item_output items ->
      result (verify_csv_files (PDict manifest') pkg_dir) =
      result (verify_csv_files (PDict manifest) pkg_dir)).
Proof.
  intros Hitems Hshape. split.
  - rewrite (verify_csv_files_spec _ _ _ Hitems Hshape).
    destruct items as [|item rest].
    + exists false. split; [reflexivity|].
      split; [discriminate|]. intros [Hne _]. contradiction.
    + eexists. split; [reflexivity|].
      rewrite forallb_forall, Forall_forall.
      split; [intros H; split; [discriminate|exact H]|intros [_ H]; exact H].
  - intros manifest' items' Hitems' Hshape' Hsame.
    rewrite (verify_csv_files_spec _ _ _ Hitems Hshape).
    rewrite (verify_csv_files_spec _ _ _ Hitems' Hshape').
    destruct items as [|item rest], items' as [|item' rest'];
      try discriminate; [reflexivity|].
    cbn [result snd]. rewrite !forallb_reads_ok_map, Hsame. reflexivity.
Qed.

(** C3, amended: for a data file that exists and is read without
    error, the count the check reports and compares with the item's
    [row_count] is the number of records the reader finds minus one;
    it is the number of lines minus one when the file has no quote
    character (a quoted field can run over several lines). *)
Theorem actual_count_is_records_minus_one
        (pkg_dir : Path) (item : pyval) (all_valid : bool)
        (content : string) (rows : list (list string)) :
  item_shape item = true ->
  fs (joinpath pkg_dir (item_output item)) = Text content ->
  csv.reader (file_lines content) = Some rows ->
  let actual_count := (Z.of_nat (length rows) - 1)%Z in
  check_item pkg_dir item all_valid =
  ((if py_eq (PInt actual_count) (item_row_count item) then []
    else [RowCountMismatch (item_db_key item) (item_row_count item)
                           actual_count])
   ++ [CsvVerified (item_db_key item) actual_count],
   Ret all_valid) /\
  (unquoted content = true ->
   actual_count = (Z.of_nat (length (file_lines content)) - 1)%Z).
Proof.
  intros Hshape Hfile Hrows actual_count. split.
  - rewrite (check_item_spec _ _ _ Hshape).
    unfold item_report, reads_ok. rewrite Hfile, Hrows, andb_true_r.
    reflexivity.
  - intros Hq. unfold actual_count.
    rewrite (file_lines_unquoted _ _ Hq Hrows). reflexivity.
Qed.

Lemma item_report_in_output
      (manifest : dict) (pkg_dir : Path) (items : list pyval)
      (item : pyval) (e : event) :
  get_default manifest "items" (PList []) = PList items ->
  forallb item_shape items = true ->
  In item items ->
  In e (item_report pkg_dir item) ->
  In e (output (verify_csv_files (PDict manifest) pkg_dir)).
Proof.
  intros Hitems Hshape Hin He.
  rewrite (verify_csv_files_spec _ _ _ Hitems Hshape).
  destruct items as [|item0 rest]; [contradiction|].
  cbn [output fst]. apply in_flat_map. exists item. split; assumption.
Qed.

(** C5: when an item of the manifest names a file that does not
    exist, the data-file check returns false, and it still handles
    every item: a file that is there and reads well is counted and
    reported, one that is there and does not read is reported as a
    read error, and each missing one is reported as not found. *)
Theorem verify_csv_files_missing_no_abort
        (manifest : dict) (pkg_dir : Path) (items : list pyval)
        (item : pyval) :
  get_default manifest "items" (PList []) = PList items ->
  forallb item_shape items = true ->
  In item items ->
  fs (joinpath pkg_dir (item_output item)) = Missing ->
  let run := verify_csv_files (PDict manifest) pkg_dir in
  result run = Ret false /\
  forall other : pyval,
    In other items ->
    let csv_path := joinpath pkg_dir (item_output other) in
    (forall (content : string) (rows : list (list string)),
        fs csv_path = Text content ->
        csv.reader (file_lines content) = Some rows ->
        In (CsvVerified (item_db_key other) (Z.of_nat (length rows) - 1))
           (output run)) /\
    (exists_ csv_path = true -> reads_ok csv_path = false ->
     exists e : exn, In (CsvReadError csv_path e) (output run)) /\
    (fs csv_path = Missing -> In (CsvNotFound csv_path) (output run)).
Proof.
  intros Hitems Hshape Hin Hmissing run. split.
  - unfold run. rewrite (verify_csv_files_spec _ _ _ Hitems Hshape).
    destruct items as [|item0 rest]; [reflexivity|].
    cbn [result snd]. f_equal.
    apply not_true_is_false. intros Hall.
    rewrite forallb_forall in Hall. specialize (Hall item Hin).
    unfold reads_ok in Hall. rewrite Hmissing in Hall. discriminate.
  - intros other Hother csv_path. repeat split.
    + intros content rows Hfile Hrows.
      apply (item_report_in_output _ _ _ other _ Hitems Hshape Hother).
      unfold item_report. fold csv_path. rewrite Hfile, Hrows.
      apply in_or_app. right. left. reflexivity.
    + intros Hexists Hbad. unfold exists_, reads_ok in *.
      destruct (fs csv_path) as [| |content] eqn:Hfile; [discriminate| |].
      * exists OSError.
        apply (item_report_in_output _ _ _ other _ Hitems Hshape Hother).
        unfold item_report. fold csv_path. rewrite Hfile. left. reflexivity.
      * destruct (csv.reader (file_lines content)) eqn:Hrows; [discriminate|].
        exists csv_Error.
        apply (item_report_in_output _ _ _ other _ Hitems Hshape Hother).
        unfold item_report. fold csv_path. rewrite Hfile, Hrows.
        left. reflexivity.
    + intros Hfile.
      apply (item_report_in_output _ _ _ other _ Hitems Hshape Hother).
      unfold item_report. fold csv_path. rewrite Hfile. left. reflexivity.
Qed.

(** ** Loading the manifest *)

Lemma verify_manifest_missing (manifest_path : Path) :
  fs manifest_path = Missing ->
  verify_manifest manifest_path =
  ([ManifestNotFound manifest_path], Ret (false, PDict [])).
Proof.
  intros H. unfold verify_manifest, exists_. rewrite H. reflexivity.
Qed.

Lemma verify_manifest_invalid (manifest_path : Path) (content : string) :
  fs manifest_path = Text content ->
  json_loads (universal_newlines content) = None ->
  verify_manifest manifest_path = ([InvalidJson], Ret (false, PDict [])).
Proof.
  intros Hfile Hjson. unfold verify_manifest, exists_, open_read.
  rewrite Hfile. cbn [negb]. rewrite bind_ret, Hjson. reflexivity.
Qed.

Lemma load_yaml_config_ok (path text : string) (cfg : pyval) :
  fs (Path_of path) = Text text ->
  yaml_safe_load (universal_newlines text) = Some cfg ->
  load_yaml_config path = ([], Ret cfg).
Proof.
  intros Hfile Hyaml. unfold load_yaml_config, open_read.
  rewrite Hfile. cbv iota. rewrite bind_ret, Hyaml. reflexivity.
Qed.

Lemma main_setup_spec
      (args : Args) (text : string) (cfg bundles defaults : dict)
      (bundle_cfg : pyval) (output_root manifest_filename : string) :
  fs (Path_of (config args)) = Text text ->
  yaml_safe_load (universal_newlines text) = Some (PDict cfg) ->
  get_default cfg "export_bundles" (PDict []) = PDict bundles ->
  lookup (bundle args) bundles = Some bundle_cfg ->
  get_default cfg "defaults" (PDict []) = PDict defaults ->
  get_default defaults "output_root" (PStr "packages") = PStr output_root ->
  get_default defaults "manifest_filename" (PStr "manifest.json") =
  PStr manifest_filename ->
  let pkg_dir := joinpath (Path_of output_root) (bundle args) in
  main_setup args =
  ([VerifyTitle; BundleLine (bundle args); ConfigLine (config args)],
   Ret (bundle_cfg, pkg_dir, joinpath pkg_dir manifest_filename)).
Proof.
  intros Hfile Hyaml Hbundles Hbundle Hdefaults Hroot Hname pkg_dir.
  unfold main_setup, get_default in *.
  rewrite (load_yaml_config_ok _ _ _ Hfile Hyaml).
  rewrite !bind_print. fold (@ret event pyval (PDict cfg)).
  py_run. rewrite Hbundles, Hdefaults. py_run. rewrite Hbundle. py_run.
  rewrite Hroot, Hname. py_run. reflexivity.
Qed.

(** C4: when the manifest at output_root/bundle/manifest_filename is
    missing or is not valid JSON, loading it returns false with an
    empty manifest after one diagnostic on the error stream, and the
    verifier exits with status 1 right after it: what it has printed
    by then is its heading, that diagnostic and the notice that it
    cannot continue, and nothing of the three later checks. *)
Theorem missing_manifest_is_fatal
        (args : Args) (text : string) (cfg bundles defaults : dict)
        (bundle_cfg : pyval) (output_root manifest_filename : string) :
  fs (Path_of (config args)) = Text text ->
  yaml_safe_load (universal_newlines text) = Some (PDict cfg) ->
  get_default cfg "export_bundles" (PDict []) = PDict bundles ->
  lookup (bundle args) bundles = Some bundle_cfg ->
  get_default cfg "defaults" (PDict []) = PDict defaults ->
  get_default defaults "output_root" (PStr "packages") = PStr output_root ->
  get_default defaults "manifest_filename" (PStr "manifest.json") =
  PStr manifest_filename ->
  let manifest_path :=
    joinpath (joinpath (Path_of output_root) (bundle args)) manifest_filename in
  (fs manifest_path = Missing \/
   exists content : string,
     fs manifest_path = Text content /\
     json_loads (universal_newlines content) = None) ->
  exists diagnostic : event,
    verify_manifest manifest_path = ([diagnostic], Ret (false, PDict [])) /\
    stream_of diagnostic = stderr /\
    main args =
    ([VerifyTitle; BundleLine (bundle args); ConfigLine (config args);
      diagnostic; CannotContinue],
     Exit 1).
Proof.
  intros Hfile Hyaml Hbundles Hbundle Hdefaults Hroot Hname manifest_path Hbad.
  assert (Hload : exists diagnostic : event,
             verify_manifest manifest_path =
             ([diagnostic], Ret (false, PDict [])) /\
             stream_of diagnostic = stderr).
  { destruct Hbad as [Hmissing|[content [Hcontent Hjson]]].
    - exists (ManifestNotFound manifest_path).
      split; [apply verify_manifest_missing; exact Hmissing|reflexivity].
    - exists InvalidJson.
      split; [exact (verify_manifest_invalid _ _ Hcontent Hjson)|reflexivity]. }
  destruct Hload as [diagnostic [Hload Hstream]].
  exists diagnostic. repeat split; [exact Hload|exact Hstream|].
  unfold main.
  rewrite (bind_Ret _ _ _ _
             (main_setup_spec args text cfg bundles defaults bundle_cfg
                output_root manifest_filename
                Hfile Hyaml Hbundles Hbundle Hdefaults Hroot Hname)).
  unfold main_checks. fold manifest_path.
  rewrite (bind_Ret _ _ _ _ Hload). reflexivity.
Qed.

(** ** The bundle configuration check *)

Lemma check_db_spec (db : pyval) (todo_count : nat) :
  db_shape db = true ->
  check_db db todo_count =
  ([db_report db],
   Ret (todo_count + (if is_todo db then 1 else 0))%nat).
Proof.
  intros Hshape. destruct db as [| | | | |d]; try discriminate.
  cbn [db_shape] in Hshape.
  unfold check_db, db_report, is_todo, db_key_of, notion_url_of, get_default.
  py_run.
  destruct (lookup "notion_url" d) as [[| | |url| |]|]; try discriminate.
  - py_run. destruct (startswith url "TODO:"); [reflexivity|].
    rewrite Nat.add_0_r. reflexivity.
  - py_run. cbn. rewrite Nat.add_0_r. reflexivity.
Qed.

Lemma for_db_spec (databases : list pyval) :
  forallb db_shape databases = true ->
  forall todo_count : nat,
    for_db databases todo_count =
    (map db_report databases,
     Ret (todo_count + length (filter is_todo databases))%nat).
Proof.
  induction databases as [|db rest IH]; intros Hshape todo_count.
  - cbn. rewrite Nat.add_0_r. reflexivity.
  - cbn [forallb] in Hshape. apply andb_prop in Hshape as [Hdb Hrest].
    cbn [for_db map filter].
    rewrite (bind_Ret _ _ _ _ (check_db_spec db todo_count Hdb)).
    rewrite (IH Hrest). cbn [output result fst snd app].
    destruct (is_todo db); cbn [length]; do 2 f_equal; lia.
Qed.

Lemma lookup_In (key : string) (d : dict) (v : pyval) :
  lookup key d = Some v -> In (key, v) d.
Proof.
  induction d as [|[k w] d IH]; [discriminate|]. cbn [lookup].
  destruct (String.eqb_spec k key) as [->|Hne].
  - intros [= ->]. left. reflexivity.
  - intros H. right. exact (IH H).
Qed.

Lemma check_key_spec (bundles : dict) (key : string) (all_valid : bool) :
  forallb (fun kv => bundle_shape (snd kv)) bundles = true ->
  check_key (PDict bundles) key all_valid =
  (key_report bundles key,
   Ret (all_valid && negb (hard_failure bundles key))).
Proof.
  intros Hshape. unfold check_key, key_report, hard_failure. py_run.
  destruct (lookup key bundles) as [bundle|] eqn:Hkey;
    [|rewrite andb_false_r; reflexivity].
  py_run. apply lookup_In in Hkey.
  rewrite forallb_forall in Hshape. specialize (Hshape _ Hkey).
  cbn [snd] in Hshape.
  destruct bundle as [| | | | |b]; try discriminate.
  cbn [bundle_shape] in Hshape. unfold get_default in *.
  rewrite bind_print. py_run.
  assert (Hdbs :
            match lookup "databases" b with
            | Some x => x | None => PList [] end =
            get_default b "databases" (PList [])) by reflexivity.
  rewrite Hdbs in *. clear Hdbs.
  set (databases := get_default b "databases" (PList [])) in *.
  assert (Hrun : forall valid : bool,
             (if negb (truthy databases)
              then print NoDatabases;;; ret false
              else
                n <- py_len databases;;
                print (DatabasesConfigured n);;;
                elements <- py_iter databases;;
                todo_count <- for_db elements 0;;
                (if (0 <? todo_count)%nat
                 then print (TodoSummary todo_count)
                 else ret tt);;;
                ret valid) =
             (databases_report databases,
              Ret (valid && truthy databases))).
  { intros valid. unfold databases_report.
    destruct (truthy databases) eqn:Htruthy; cbn [negb];
      [|rewrite andb_false_r; reflexivity].
    destruct databases as [| | | |dbs|];
      try discriminate; try (rewrite Htruthy in Hshape; discriminate).
    py_run. rewrite bind_print.
    rewrite (for_db_spec dbs Hshape 0).
    cbn [bind output result fst snd plus]. rewrite andb_true_r.
    destruct (0 <? length (filter is_todo dbs))%nat; cbn;
      rewrite ?app_nil_r; reflexivity. }
  destruct (lookup "name" b) as [name|], (lookup "schema_version" b) as [version|];
    repeat (progress (py_run; rewrite ?bind_print_ret; cbv beta)); rewrite Hrun;
    cbn [output result fst snd app]; rewrite ?negb_involutive, ?andb_false_r;
    reflexivity.
Qed.

Lemma for_key_spec (bundles : dict) (keys_to_check : list string) :
  forallb (fun kv => bundle_shape (snd kv)) bundles = true ->
  forall all_valid : bool,
    for_key (PDict bundles) keys_to_check all_valid =
    (flat_map (key_report bundles) keys_to_check,
     Ret (all_valid &&
          forallb (fun key => negb (hard_failure bundles key)) keys_to_check)).
Proof.
  intros Hshape.
  induction keys_to_check as [|key rest IH]; intros all_valid.
  - cbn. rewrite andb_true_r. reflexivity.
  - cbn [for_key flat_map forallb].
    rewrite (bind_Ret _ _ _ _ (check_key_spec bundles key all_valid Hshape)).
    rewrite IH. cbn [output result fst snd]. rewrite andb_assoc. reflexivity.
Qed.

Lemma filter_flat_map {A B} (f : B -> bool) (g : A -> list B) (l : list A) :
  filter f (flat_map g l) = flat_map (fun x => filter f (g x)) l.
Proof.
  induction l as [|x l IH]; [reflexivity|].
  cbn [flat_map]. rewrite filter_app, IH. reflexivity.
Qed.

Lemma flat_map_nil {A B} (g : A -> list B) (l : list A) :
  (forall x : A, g x = []) -> flat_map g l = [].
Proof.
  intros Hg. induction l as [|x l IH]; [reflexivity|].
  cbn [flat_map]. rewrite Hg, IH. reflexivity.
Qed.

Lemma placeholder_warnings_of_databases (dbs : list pyval) :
  filter is_placeholder_warning (map db_report dbs) =
  map placeholder_warning (filter is_todo dbs).
Proof.
  induction dbs as [|db rest IH]; [reflexivity|].
  cbn [map filter].
  assert (Hreport : db_report db =
                    if is_todo db then placeholder_warning db
                    else UrlConfigured (db_key_of db)) by reflexivity.
  rewrite Hreport.
  destruct (is_todo db); cbn [is_placeholder_warning map]; rewrite IH;
    reflexivity.
Qed.

Lemma todo_summaries_of_databases (dbs : list pyval) :
  filter is_todo_summary (map db_report dbs) = [].
Proof.
  induction dbs as [|db rest IH]; [reflexivity|].
  cbn [map filter].
  assert (Hreport : db_report db =
                    if is_todo db then placeholder_warning db
                    else UrlConfigured (db_key_of db)) by reflexivity.
  rewrite Hreport.
  destruct (is_todo db); cbn [is_todo_summary placeholder_warning]; exact IH.
Qed.

Lemma placeholder_warnings_of_key (bundles : dict) (key : string) :
  filter is_placeholder_warning (key_report bundles key) =
  map placeholder_warning (filter is_todo (databases_at bundles key)).
Proof.
  unfold key_report, databases_at, databases_report.
  destruct (lookup key bundles) as [[| | | | |b]|]; try reflexivity.
  cbn [filter].
  destruct (lookup "name" b), (lookup "schema_version" b);
    cbn [is_placeholder_warning];
    destruct (get_default b "databases" (PList [])) as [|x|z|s|dbs|d];
    try (destruct (truthy _); reflexivity);
    (destruct (truthy (PList dbs)) eqn:Hdbs;
     [cbn [filter is_placeholder_warning];
      rewrite filter_app, placeholder_warnings_of_databases;
      destruct (0 <? _)%nat; cbn; rewrite app_nil_r; reflexivity
     |destruct dbs; [reflexivity|discriminate]]).
Qed.

Lemma todo_summaries_of_key (bundles : dict) (key : string) :
  filter is_todo_summary (key_report bundles key) =
  let n := length (filter is_todo (databases_at bundles key)) in
  if (0 <? n)%nat then [TodoSummary n] else [].
Proof.
  unfold key_report, databases_at, databases_report.
  destruct (lookup key bundles) as [[| | | | |b]|]; try reflexivity.
  cbn [filter].
  destruct (lookup "name" b), (lookup "schema_version" b);
    cbn [is_todo_summary];
    destruct (get_default b "databases" (PList [])) as [|x|z|s|dbs|d];
    try (destruct (truthy _); reflexivity);
    (destruct (truthy (PList dbs)) eqn:Hdbs;
     [cbn [filter is_todo_summary];
      rewrite filter_app, todo_summaries_of_databases;
      destruct (0 <? _)%nat; reflexivity
     |destruct dbs; [reflexivity|discriminate]]).
Qed.

Lemma check_bundle_config_spec (cfg : dict) (bundle_key : option string) :
  config_shape cfg = true ->
  let bundles := bundles_of cfg in
  let checked := checked_keys bundles bundle_key in
  check_bundle_config (PDict cfg) bundle_key =
  match bundles with
  | [] => ([NoExportBundles], Ret false)
  | _ =>
      (flat_map (key_report bundles) checked,
       Ret (forallb (fun key => negb (hard_failure bundles key)) checked))
  end.
Proof.
  intros Hshape bundles checked.
  unfold check_bundle_config, config_shape, get_default in *. py_run.
  subst checked bundles. unfold bundles_of, checked_keys.
  destruct (lookup "export_bundles" cfg) as [v|]; [|reflexivity].
  destruct v as [| | | | |bundles]; try (rewrite Hshape; reflexivity).
  destruct bundles as [|kv bundles]; [reflexivity|].
  cbn [truthy length Nat.eqb negb].
  destruct bundle_key as [key|].
  - cbn [truthy]. destruct (key =? "")%string; cbn [negb]; py_run;
      rewrite (for_key_spec _ _ Hshape); reflexivity.
  - py_run. rewrite (for_key_spec _ _ Hshape). reflexivity.
Qed.

(** C6: the bundle configuration check returns true exactly when the
    configuration has a bundle map that is not empty and no checked
    key meets a hard failure (key not in the map, no name, no
    schema_version, no database).  Placeholder entries never enter
    that answer: each one gives one warning, in order, and each
    checked bundle that has some gives one summary with their
    number. *)
Theorem check_bundle_config_true_iff
        (cfg : dict) (bundle_key : option string) :
  config_shape cfg = true ->
  let run := check_bundle_config (PDict cfg) bundle_key in
  let bundles := bundles_of cfg in
  let checked := checked_keys bundles bundle_key in
  let todo := fun key => filter is_todo (databases_at bundles key) in
  (exists valid : bool,
      result run = Ret valid /\
      (valid = true <->
       bundles <> [] /\
       forall key : string, In key checked -> hard_failure bundles key = false)) /\
  filter is_placeholder_warning (output run) =
  flat_map (fun key => map placeholder_warning (todo key)) checked /\
  filter is_todo_summary (output run) =
  flat_map (fun key =>
              if (0 <? length (todo key))%nat
              then [TodoSummary (length (todo key))]
              else [])
           checked.
Proof.
  intros Hshape run bundles checked todo.
  pose proof (check_bundle_config_spec cfg bundle_key Hshape) as Hrun.
  cbv zeta in Hrun. fold bundles checked run in Hrun.
  assert (Hnone : bundles = [] ->
                  flat_map (fun key => map placeholder_warning (todo key))
                           checked = [] /\
                  flat_map (fun key =>
                              if (0 <? length (todo key))%nat
                              then [TodoSummary (length (todo key))]
                              else [])
                           checked = []).
  { intros Hempty. subst todo. rewrite Hempty. clear.
    split; apply flat_map_nil; intros key; reflexivity. }
  destruct bundles as [|kv rest].
  - destruct (Hnone eq_refl) as [Hw Hs]. rewrite Hrun, Hw, Hs.
    repeat split.
    exists false. split; [reflexivity|].
    split; [discriminate|]. intros [Hne _]. contradiction.
  - clear Hnone. rewrite Hrun.
    cbn [output result fst snd]. repeat split.
    + eexists. split; [reflexivity|].
      rewrite forallb_forall. split.
      * intros H. split; [discriminate|].
        intros key Hkey. apply negb_true_iff. exact (H key Hkey).
      * intros [_ H] key Hkey. apply negb_true_iff. exact (H key Hkey).
    + rewrite filter_flat_map. apply flat_map_ext. intros key.
      apply placeholder_warnings_of_key.
    + rewrite filter_flat_map. apply flat_map_ext. intros key.
      apply todo_summaries_of_key.
Qed.

Lemma no_url_shape (db : pyval) : no_url db = true -> db_shape db = true.
Proof.
  destruct db as [| | | | |d]; try discriminate. cbn [no_url db_shape].
  destruct (lookup "notion_url" d) as [[| | | | |]|]; try discriminate;
    reflexivity.
Qed.

Lemma no_url_not_todo (db : pyval) : no_url db = true -> is_todo db = false.
Proof.
  destruct db as [| | | | |d]; try discriminate.
  unfold no_url, is_todo, notion_url_of, get_default.
  destruct (lookup "notion_url" d) as [[| | |url| |]|]; try discriminate;
    [|reflexivity].
  intros Hurl. apply String.eqb_eq in Hurl. subst url. reflexivity.
Qed.

(** C9: a database entry whose [notion_url] is absent or empty counts
    as configured: the check reports success for it and prints
    nothing else, leaves the count of placeholders as it is, and a
    bundle with a name, a schema_version and such an entry among its
    databases leaves [all_valid] as it is. *)
Theorem check_db_no_url_is_configured (db : pyval) :
  no_url db = true ->
  (forall todo_count : nat,
      check_db db todo_count = ([UrlConfigured (db_key_of db)], Ret todo_count)) /\
  (forall (bundles b : dict) (key : string) (name version : pyval)
          (dbs : list pyval) (all_valid : bool),
      forallb (fun kv => bundle_shape (snd kv)) bundles = true ->
      lookup key bundles = Some (PDict b) ->
      lookup "name" b = Some name ->
      lookup "schema_version" b = Some version ->
      lookup "databases" b = Some (PList dbs) ->
      In db dbs ->
      result (check_key (PDict bundles) key all_valid) = Ret all_valid /\
      In (UrlConfigured (db_key_of db))
         (output (check_key (PDict bundles) key all_valid))).
Proof.
  intros Hno. split.
  - intros todo_count.
    rewrite (check_db_spec db todo_count (no_url_shape db Hno)).
    unfold db_report. rewrite (no_url_not_todo db Hno), Nat.add_0_r.
    reflexivity.
  - intros bundles b key name version dbs all_valid
           Hshape Hkey Hname Hversion Hdbs Hin.
    rewrite (check_key_spec bundles key all_valid Hshape).
    unfold hard_failure, key_report, databases_report, get_default.
    rewrite Hkey, Hname, Hversion, Hdbs. cbn [output result fst snd].
    assert (Htruthy : truthy (PList dbs) = true)
      by (destruct dbs; [contradiction|reflexivity]).
    rewrite Htruthy. cbn [negb]. rewrite andb_true_r.
    split; [reflexivity|].
    do 4 right. apply in_or_app. left.
    apply in_map_iff. exists db. split; [|exact Hin].
    unfold db_report. rewrite (no_url_not_todo db Hno). reflexivity.
Qed.

(* ================================================================ *)
(** * Further properties of the two scripts *)

(** ** Loading the configuration and the manifest *)

Lemma load_yaml_config_missing (path : string) :
  fs (Path_of path) = Missing ->
  load_yaml_config path = ([ConfigNotFound path], Exit 1).
Proof.
  intros Hfile. unfold load_yaml_config, open_read. rewrite Hfile. reflexivity.
Qed.

Lemma load_yaml_config_invalid (path text : string) :
  fs (Path_of path) = Text text ->
  yaml_safe_load (universal_newlines text) = None ->
  load_yaml_config path = ([InvalidYaml path], Exit 1).
Proof.
  intros Hfile Hyaml. unfold load_yaml_config, open_read.
  rewrite Hfile. cbv iota. rewrite bind_ret, Hyaml. reflexivity.
Qed.

(** X1: [load_yaml_config] returns a document only for a file that
    exists as text and that the parser accepts; a missing file and a
    malformed one end the process with status 1 after one line on the
    error stream; a file that is there but cannot be read raises, the
    function catching neither [OSError] nor a decoding error. *)
Theorem load_yaml_config_cases (path : string) :
  (forall cfg : pyval,
      result (load_yaml_config path) = Ret cfg <->
      exists text : string,
        fs (Path_of path) = Text text /\
        yaml_safe_load (universal_newlines text) = Some cfg) /\
  (fs (Path_of path) = Missing ->
   load_yaml_config path = ([ConfigNotFound path], Exit 1)) /\
  (forall text : string,
      fs (Path_of path) = Text text ->
      yaml_safe_load (universal_newlines text) = None ->
      load_yaml_config path = ([InvalidYaml path], Exit 1)) /\
  (fs (Path_of path) = Unreadable ->
   load_yaml_config path = ([], Raise OSError)).
Proof.
  unfold load_yaml_config, open_read. repeat split.
  - destruct (fs (Path_of path)) as [| |text]; try discriminate.
    rewrite bind_ret.
    destruct (yaml_safe_load (universal_newlines text)) as [v|] eqn:Hyaml;
      [|discriminate].
    intros [= <-]. exists text. split; [reflexivity|exact Hyaml].
  - intros [text [Hfile Hyaml]]. rewrite Hfile. cbv iota.
    rewrite bind_ret, Hyaml. reflexivity.
  - intros ->. reflexivity.
  - intros text Hfile Hyaml. rewrite Hfile. cbv iota.
    rewrite bind_ret, Hyaml. reflexivity.
  - intros ->. reflexivity.
Qed.

Lemma verify_manifest_ok (manifest_path : Path) (content : string)
      (manifest : pyval) :
  fs manifest_path = Text content ->
  json_loads (universal_newlines content) = Some manifest ->
  verify_manifest manifest_path =
  ([ManifestLoaded manifest_path], Ret (true, manifest)).
Proof.
  intros Hfile Hjson. unfold verify_manifest, exists_, open_read.
  rewrite Hfile. cbn [negb]. rewrite bind_ret, Hjson. reflexivity.
Qed.

(** X2: [verify_manifest] answers true, with the parsed manifest, only
    for a file that exists as text and is valid JSON; whenever it
    answers false the manifest it hands back is the empty dict; and a
    manifest that is there but cannot be read is no false answer: the
    [OSError] leaves the function. *)
Theorem verify_manifest_cases (manifest_path : Path) :
  (forall manifest : pyval,
      result (verify_manifest manifest_path) = Ret (true, manifest) <->
      exists content : string,
        fs manifest_path = Text content /\
        json_loads (universal_newlines content) = Some manifest) /\
  (forall manifest : pyval,
      result (verify_manifest manifest_path) = Ret (false, manifest) ->
      manifest = PDict []) /\
  (fs manifest_path = Unreadable ->
   verify_manifest manifest_path = ([], Raise OSError)).
Proof.
  repeat split.
  - unfold verify_manifest, exists_, open_read.
    destruct (fs manifest_path) as [| |content] eqn:Hfile; try discriminate.
    cbn [negb]. rewrite bind_ret.
    destruct (json_loads (universal_newlines content)) as [v|] eqn:Hjson;
      [|discriminate].
    cbn. intros [= <-]. exists content. split; [reflexivity|exact Hjson].
  - intros [content [Hfile Hjson]].
    rewrite (verify_manifest_ok _ _ _ Hfile Hjson). reflexivity.
  - intros manifest. unfold verify_manifest, exists_, open_read.
    destruct (fs manifest_path) as [| |content]; cbn [negb].
    + cbn. intros [= <-]. reflexivity.
    + discriminate.
    + rewrite bind_ret.
      destruct (json_loads (universal_newlines content)); [discriminate|].
      cbn. intros [= <-]. reflexivity.
  - intros Hfile. unfold verify_manifest, exists_, open_read.
    rewrite Hfile. reflexivity.
Qed.

(** ** How the verifier ends *)















(** X4: the three fatal cases of the verifier before any check: a
    configuration file that is missing, one that is not valid YAML,
    and a bundle key the configuration does not have.  Each ends the
    process with status 1 after the heading and one line on the error
    stream; the manifest is not looked at. *)
Theorem main_fatal_before_checks (args : Args) :
  (fs (Path_of (config args)) = Missing ->
   main args = (verify_heading args ++ [ConfigNotFound (config args)], Exit 1)) /\
  (forall text : string,
      fs (Path_of (config args)) = Text text ->
      yaml_safe_load (universal_newlines text) = None ->
      main args = (verify_heading args ++ [InvalidYaml (config args)], Exit 1)) /\
  (forall (text : string) (cfg bundles : dict),
      fs (Path_of (config args)) = Text text ->
      yaml_safe_load (universal_newlines text) = Some (PDict cfg) ->
      get_default cfg "export_bundles" (PDict []) = PDict bundles ->
      lookup (bundle args) bundles = None ->
      main args = (verify_heading args ++ [BundleNotFound (bundle args)], Exit 1)).
Proof.
  unfold main, main_setup, verify_heading. repeat split.
  - intros Hfile. rewrite (load_yaml_config_missing _ Hfile). reflexivity.
  - intros text Hfile Hyaml.
    rewrite (load_yaml_config_invalid _ _ Hfile Hyaml). reflexivity.
  - intros text cfg bundles Hfile Hyaml Hbundles Hkey.
    rewrite (load_yaml_config_ok _ _ _ Hfile Hyaml).
    unfold get_default in Hbundles.
    rewrite !bind_print. fold (@ret event pyval (PDict cfg)).
    py_run. rewrite Hbundles. py_run. rewrite Hkey. py_run. reflexivity.
Qed.

Lemma verify_schema_version_result (manifest : dict) (expected : pyval) :
  let actual := get_default manifest "schema_version" PNone in
  result (verify_schema_version (PDict manifest) expected) =
  Ret (truthy actual && py_eq actual expected).
Proof.
  intros actual.
  destruct (truthy actual) eqn:Htruthy.
  - rewrite (verify_schema_version_truthy _ _ Htruthy). cbv zeta. fold actual.
    destruct (py_eq actual expected); reflexivity.
  - rewrite (verify_schema_version_falsy _ _ Htruthy). reflexivity.
Qed.

Lemma verify_chittyid_compliance_spec (manifest : dict) :
  audit_shape manifest = true ->
  verify_chittyid_compliance (PDict manifest) =
  ([if truthy (chitty_id_of manifest)
    then ChittyIdPresent (chitty_id_of manifest)
    else NoChittyId],
   Ret true).
Proof.
  intros Hshape.
  unfold verify_chittyid_compliance, chitty_id_of, audit_shape, get_default in *.
  py_run.
  destruct (lookup "audit" manifest) as [[| | | | |audit]|]; try discriminate;
    py_run; destruct (truthy _); reflexivity.
Qed.

(** X9: the identifier check looks at the truth value of
    [audit.chitty_id], not at its presence: an identifier that is
    there but empty (or [null]) gets the same warning as a missing one.
    The warning goes to the error stream and the answer is true all
    the same. *)
Theorem verify_chittyid_compliance_report (manifest : dict) :
  audit_shape manifest = true ->
  verify_chittyid_compliance (PDict manifest) =
  ([if truthy (chitty_id_of manifest)
    then ChittyIdPresent (chitty_id_of manifest)
    else NoChittyId],
   Ret true) /\
  stream_of NoChittyId = stderr.
Proof.
  intros Hshape. split; [|reflexivity].
  exact (verify_chittyid_compliance_spec manifest Hshape).
Qed.

(** X5: once the manifest is loaded the verifier runs its three checks
    one after the other, whatever the earlier ones answered, prints
    what they print in that order between the manifest line and the
    summary, and ends with status 0 exactly when the data-file check
    and the schema version check both answered true. *)
Theorem main_exit_status
        (args : Args) (text : string) (cfg bundles defaults bundle_cfg : dict)
        (output_root manifest_filename content : string)
        (manifest : dict) (items : list pyval) :
  fs (Path_of (config args)) = Text text ->
  yaml_safe_load (universal_newlines text) = Some (PDict cfg) ->
  get_default cfg "export_bundles" (PDict []) = PDict bundles ->
  lookup (bundle args) bundles = Some (PDict bundle_cfg) ->
  get_default cfg "defaults" (PDict []) = PDict defaults ->
  get_default defaults "output_root" (PStr "packages") = PStr output_root ->
  get_default defaults "manifest_filename" (PStr "manifest.json") =
  PStr manifest_filename ->
  let pkg_dir := joinpath (Path_of output_root) (bundle args) in
  let manifest_path := joinpath pkg_dir manifest_filename in
  fs manifest_path = Text content ->
  json_loads (universal_newlines content) = Some (PDict manifest) ->
  get_default manifest "items" (PList []) = PList items ->
  forallb item_shape items = true ->
  audit_shape manifest = true ->
  let data_files := verify_csv_files (PDict manifest) pkg_dir in
  let version :=
    verify_schema_version
      (PDict manifest) (get_default bundle_cfg "schema_version" (PStr "1.0.0")) in
  let identifier := verify_chittyid_compliance (PDict manifest) in
  exists data_ok version_ok : bool,
    result data_files = Ret data_ok /\
    result version = Ret version_ok /\
    main args =
    (verify_heading args ++ [ManifestLoaded manifest_path] ++
     output data_files ++ output version ++ output identifier ++
     verify_summary args (data_ok && version_ok),
     Exit (if data_ok && version_ok then 0 else 1)%Z).
Proof.
  intros Hfile Hyaml Hbundles Hbundle Hdefaults Hroot Hname pkg_dir
         manifest_path Hmanifest Hjson Hitems Hshape Haudit
         data_files version identifier.
  assert (Hdata : exists data_ok : bool, result data_files = Ret data_ok).
  { unfold data_files. rewrite (verify_csv_files_spec _ _ _ Hitems Hshape).
    destruct items; eexists; reflexivity. }
  destruct Hdata as [data_ok Hdata].
  pose proof (verify_schema_version_result
                manifest (get_default bundle_cfg "schema_version" (PStr "1.0.0")))
    as Hversion.
  cbv zeta in Hversion. fold version in Hversion.
  set (version_ok := truthy (get_default manifest "schema_version" PNone) &&
                     py_eq (get_default manifest "schema_version" PNone)
                           (get_default bundle_cfg "schema_version" (PStr "1.0.0")))
    in Hversion.
  pose proof (verify_chittyid_compliance_spec manifest Haudit) as Hid.
  fold identifier in Hid.
  exists data_ok, version_ok. split; [exact Hdata|]. split; [exact Hversion|].
  unfold main.
  rewrite (bind_Ret _ _ _ _
             (main_setup_spec args text cfg bundles defaults (PDict bundle_cfg)
                output_root manifest_filename
                Hfile Hyaml Hbundles Hbundle Hdefaults Hroot Hname)).
  fold pkg_dir manifest_path. unfold main_checks.
  rewrite (bind_Ret _ _ _ _ (verify_manifest_ok _ _ _ Hmanifest Hjson)).
  cbn [fst snd negb andb]. fold data_files.
  rewrite (bind_Ret _ _ _ _ (eq_trans (Py_eta data_files)
                                      (f_equal (pair (output data_files)) Hdata))).
  unfold expected_version_of. cbn [py_get]. rewrite bind_ret.
  fold (get_default bundle_cfg "schema_version" (PStr "1.0.0")). fold version.
  rewrite (bind_Ret _ _ _ _ (eq_trans (Py_eta version)
                                      (f_equal (pair (output version)) Hversion))).
  fold identifier. rewrite (bind_Ret _ _ _ _ Hid).
  rewrite Hid. cbn [output result fst snd]. rewrite andb_true_r.
  unfold verify_heading, verify_summary.
  destruct (data_ok && version_ok); cbn [app];
    rewrite <- ?app_assoc; reflexivity.
Qed.

(** ** More on the data-file check *)

Lemma check_item_malformed (pkg_dir : Path) (item : pyval) (all_valid : bool) :
  item_shape item = false ->
  check_item pkg_dir item all_valid =
  ([], Raise (match item with PDict _ => TypeError | _ => AttributeError end)).
Proof.
  intros Hshape. destruct item as [| | | | |d]; try reflexivity.
  unfold check_item. cbn [item_shape] in Hshape. py_run.
  destruct (lookup "output" d) as [[| | |s| |]|]; try discriminate; reflexivity.
Qed.

Lemma for_item_malformed (pkg_dir : Path) (before after : list pyval)
      (bad : pyval) :
  forallb item_shape before = true ->
  item_shape bad = false ->
  forall all_valid : bool,
    for_item pkg_dir (before ++ bad :: after) all_valid =
    (flat_map (item_report pkg_dir) before,
     Raise (match bad with PDict _ => TypeError | _ => AttributeError end)).
Proof.
  intros Hbefore Hbad.
  induction before as [|item rest IH]; intros all_valid.
  - cbn [app for_item flat_map].
    rewrite (bind_Raise _ _ _ _ (check_item_malformed _ _ _ Hbad)).
    reflexivity.
  - cbn [forallb] in Hbefore. apply andb_prop in Hbefore as [Hitem Hrest].
    cbn [app for_item flat_map].
    rewrite (bind_Ret _ _ _ _ (check_item_spec _ _ _ Hitem)).
    rewrite (IH Hrest). reflexivity.
Qed.

(** X6: an item that is not a mapping, or whose [output] is not a
    string, is no failed item: the exception leaves the data-file
    check ([AttributeError] for the first, [TypeError] for the second)
    after the reports of the items before it, and the items after it
    are not looked at. *)
Theorem verify_csv_files_malformed_item
        (manifest : dict) (pkg_dir : Path)
        (before after : list pyval) (bad : pyval) :
  get_default manifest "items" (PList []) = PList (before ++ bad :: after) ->
  forallb item_shape before = true ->
  item_shape bad = false ->
  verify_csv_files (PDict manifest) pkg_dir =
  (flat_map (item_report pkg_dir) before,
   Raise (match bad with PDict _ => TypeError | _ => AttributeError end)).
Proof.
  intros Hitems Hbefore Hbad.
  unfold verify_csv_files, get_default in *. py_run. rewrite Hitems.
  assert (Htruthy : truthy (PList (before ++ bad :: after)) = true)
    by (destruct before; reflexivity).
  rewrite Htruthy. py_run. apply for_item_malformed; assumption.
Qed.

Lemma item_report_one_verdict (pkg_dir : Path) (item : pyval) :
  length (filter is_item_verdict (item_report pkg_dir item)) = 1%nat.
Proof.
  unfold item_report.
  destruct (fs _) as [| |content]; try reflexivity.
  destruct (csv.reader _) as [rows|]; [|reflexivity].
  destruct (py_eq _ _); reflexivity.
Qed.

(** X7: the data-file check gives every item of the manifest exactly
    one verdict line (verified, not found or read error): its output
    holds as many of them as the manifest has items. *)
Theorem verify_csv_files_one_verdict_each
        (manifest : dict) (pkg_dir : Path) (items : list pyval) :
  get_default manifest "items" (PList []) = PList items ->
  forallb item_shape items = true ->
  length (filter is_item_verdict
                 (output (verify_csv_files (PDict manifest) pkg_dir))) =
  length items.
Proof.
  intros Hitems Hshape.
  rewrite (verify_csv_files_spec _ _ _ Hitems Hshape).
  destruct items as [|item rest]; [reflexivity|].
  cbn [output fst]. clear.
  generalize (item :: rest). intros items.
  induction items as [|i items IH]; [reflexivity|].
  cbn [flat_map]. rewrite filter_app, length_app, item_report_one_verdict, IH.
  reflexivity.
Qed.

(** ** More on the schema version check *)

(** X8: the schema version check prints one line whatever it finds,
    and the line goes to the error stream exactly when the answer is
    false. *)
Theorem verify_schema_version_one_line (manifest : dict) (expected : pyval) :
  exists (l : event) (ok : bool),
    verify_schema_version (PDict manifest) expected = ([l], Ret ok) /\
    (stream_of l = stderr <-> ok = false).
Proof.
  destruct (truthy (get_default manifest "schema_version" PNone)) eqn:Htruthy.
  - rewrite (verify_schema_version_truthy _ _ Htruthy). cbv zeta.
    destruct (py_eq _ expected); eexists; eexists; (split; [reflexivity|]);
      cbn; split; congruence.
  - rewrite (verify_schema_version_falsy _ _ Htruthy).
    eexists; eexists; (split; [reflexivity|]); cbn; split; congruence.
Qed.

(** ** More on the bundle configuration check *)




Lemma announced_keys_app (l1 l2 : list event) :
  announced_keys (l1 ++ l2) = announced_keys l1 ++ announced_keys l2.
Proof.
  induction l1 as [|e l1 IH]; [reflexivity|].
  cbn [app announced_keys]. destruct (announced_key e); cbn [app];
    rewrite IH; reflexivity.
Qed.

Lemma announced_keys_databases (databases : pyval) :
  announced_keys (databases_report databases) = [].
Proof.
  unfold databases_report. destruct (truthy databases); [|reflexivity].
  destruct databases as [| | | |dbs|]; try reflexivity.
  cbn [announced_keys announced_key]. rewrite announced_keys_app.
  assert (Hdbs : announced_keys (map db_report dbs) = []).
  { induction dbs as [|db rest IH]; [reflexivity|].
    cbn [map announced_keys]. unfold db_report at 1.
    destruct (is_todo db); exact IH. }
  rewrite Hdbs. destruct (0 <? _)%nat; reflexivity.
Qed.

Lemma announced_keys_key (bundles : dict) (key : string) :
  forallb (fun kv => bundle_shape (snd kv)) bundles = true ->
  announced_keys (key_report bundles key) =
  if has_key bundles key then [key] else [].
Proof.
  intros Hshape. unfold key_report, has_key.
  destruct (lookup key bundles) as [bundle|] eqn:Hkey; [|reflexivity].
  apply lookup_In in Hkey. rewrite forallb_forall in Hshape.
  specialize (Hshape _ Hkey). cbn [snd] in Hshape.
  destruct bundle as [| | | | |b]; try discriminate.
  cbn [announced_keys announced_key].
  destruct (lookup "name" b), (lookup "schema_version" b);
    cbn [announced_keys announced_key];
    rewrite announced_keys_databases; reflexivity.
Qed.

Lemma has_key_keys (bundles : dict) :
  filter (has_key bundles) (keys bundles) = keys bundles.
Proof.
  assert (H : forall key, In key (keys bundles) -> has_key bundles key = true).
  { unfold has_key. induction bundles as [|[k v] rest IH]; [contradiction|].
    intros key Hin. cbn [lookup].
    destruct (String.eqb_spec k key) as [_|Hne]; [reflexivity|].
    destruct Hin as [Heq|Hin]; [contradiction|]. exact (IH key Hin). }
  induction (keys bundles) as [|key rest IH]; [reflexivity|].
  cbn [filter]. rewrite (H key (or_introl eq_refl)).
  rewrite IH; [reflexivity|]. intros k Hk. apply H. right. exact Hk.
Qed.

Lemma check_bundle_config_output (cfg : dict) (bundle_key : option string) :
  config_shape cfg = true ->
  bundles_of cfg <> [] ->
  output (check_bundle_config (PDict cfg) bundle_key) =
  flat_map (key_report (bundles_of cfg))
           (checked_keys (bundles_of cfg) bundle_key).
Proof.
  intros Hshape Hnonempty.
  pose proof (check_bundle_config_spec cfg bundle_key Hshape) as Hrun.
  cbv zeta in Hrun. rewrite Hrun.
  destruct (bundles_of cfg); [contradiction|reflexivity].
Qed.

Lemma bundles_of_shape (cfg : dict) :
  config_shape cfg = true ->
  forallb (fun kv => bundle_shape (snd kv)) (bundles_of cfg) = true.
Proof.
  unfold bundles_of, config_shape, get_default.
  destruct (lookup "export_bundles" cfg) as [[| | | | |bs]|];
    intros Hshape; first [exact Hshape | reflexivity].
Qed.

Lemma announced_keys_flat_map (bundles : dict) (checked : list string) :
  forallb (fun kv => bundle_shape (snd kv)) bundles = true ->
  announced_keys (flat_map (key_report bundles) checked) =
  filter (has_key bundles) checked.
Proof.
  intros Hshape. induction checked as [|key rest IH]; [reflexivity|].
  cbn [flat_map filter].
  rewrite announced_keys_app, (announced_keys_key _ _ Hshape), IH.
  destruct (has_key bundles key); reflexivity.
Qed.

(** X11: which bundles the bundle check looks into.  With a filter it
    announces that bundle alone, and none when the key is unknown;
    with no filter it announces every bundle of the configuration,
    once each and in the order of the file: a bundle that fails does
    not stop the ones after it. *)
Theorem check_bundle_config_announces
        (cfg : dict) (bundle_key : option string) :
  config_shape cfg = true ->
  bundles_of cfg <> [] ->
  let bundles := bundles_of cfg in
  announced_keys (output (check_bundle_config (PDict cfg) bundle_key)) =
  filter (has_key bundles) (checked_keys bundles bundle_key) /\
  announced_keys (output (check_bundle_config (PDict cfg) None)) =
  keys bundles.
Proof.
  intros Hshape Hnonempty bundles. subst bundles.
  rewrite !(check_bundle_config_output _ _ Hshape Hnonempty).
  rewrite !(announced_keys_flat_map _ _ (bundles_of_shape _ Hshape)).
  split; [reflexivity|]. cbn [checked_keys]. apply has_key_keys.
Qed.

(** ** The output directory check *)

Lemma sbind_Ret {A B} (m : StPy A) (f : A -> StPy B)
      (w w1 : FS) (l : list line) (a : A) :
  m w = (w1, (l, Ret a)) ->
  sbind m f w =
  (final_state (f a w1), (l ++ printed (f a w1), ended (f a w1))).
Proof. intros H. unfold sbind. rewrite H. reflexivity. Qed.

Lemma sbind_Exit {A B} (m : StPy A) (f : A -> StPy B)
      (w w1 : FS) (l : list line) (code : Z) :
  m w = (w1, (l, Exit code)) -> sbind m f w = (w1, (l, Exit code)).
Proof. intros H. unfold sbind. rewrite H. reflexivity. Qed.

Lemma lift_Ret {A} (m : M A) (w : FS) (a : A) :
  result m = Ret a -> lift m w = (w, (map inl (output m), Ret a)).
Proof. intros H. unfold lift. fold (result m). rewrite H. reflexivity. Qed.

Lemma sbind_Raise {A B} (m : StPy A) (f : A -> StPy B)
      (w w1 : FS) (l : list line) (e : exn) :
  m w = (w1, (l, Raise e)) -> sbind m f w = (w1, (l, Raise e)).
Proof. intros H. unfold sbind. rewrite H. reflexivity. Qed.

Lemma effect_run (op : FS -> FS * option exn) (w : FS) :
  effect op w =
  (fst (op w),
   ([], match snd (op w) with None => Ret tt | Some e => Raise e end)).
Proof. unfold effect. destruct (snd (op w)); reflexivity. Qed.

(** The body of the [try] of the directory check, from the state [w]. *)
Lemma probe_run (output_root : string) (w : FS) :
  let root := Path_of output_root in
  (test_path <- lift (py_Path (PStr output_root));;
   effect (fun w => mkdir_parents w test_path);;;
   effect (fun w => write_text w (joinpath test_path ".preflight_test") "test");;;
   effect (fun w => unlink w (joinpath test_path ".preflight_test"));;;
   say (WriteVerified (PStr output_root));;;
   sret true)%stpy w =
  (fst (probe w root),
   match snd (probe w root) with
   | None => ([inr (WriteVerified (PStr output_root))], Ret true)
   | Some e => ([], Raise e)
   end).
Proof.
  intros root. unfold probe. fold root.
  rewrite (sbind_Ret _ _ w w [] root eq_refl).
  pose proof (effect_run (fun w => mkdir_parents w root) w) as Hmade.
  cbv beta in Hmade.
  destruct (mkdir_parents w root) as [w1 [e1|]]; cbn [fst snd] in *.
  - rewrite (sbind_Raise _ _ w w1 [] e1 Hmade). reflexivity.
  - rewrite (sbind_Ret _ _ w w1 [] tt Hmade). cbv zeta.
    pose proof (effect_run
                  (fun w => write_text w (joinpath root ".preflight_test") "test")
                  w1) as Hwritten.
    cbv beta in Hwritten.
    destruct (write_text w1 (joinpath root ".preflight_test") "test")
      as [w2 [e2|]]; cbn [fst snd] in *.
    + rewrite (sbind_Raise _ _ w1 w2 [] e2 Hwritten). reflexivity.
    + rewrite (sbind_Ret _ _ w1 w2 [] tt Hwritten).
      pose proof (effect_run
                    (fun w => unlink w (joinpath root ".preflight_test")) w2)
        as Hgone.
      cbv beta in Hgone.
      destruct (unlink w2 (joinpath root ".preflight_test")) as [w3 [e3|]];
        cbn [fst snd] in *.
      * rewrite (sbind_Raise _ _ w2 w3 [] e3 Hgone). reflexivity.
      * rewrite (sbind_Ret _ _ w2 w3 [] tt Hgone). reflexivity.
Qed.

Lemma check_output_directories_spec
      (cfg defaults : dict) (output_root : string) (w : FS) :
  get_default cfg "defaults" (PDict []) = PDict defaults ->
  get_default defaults "output_root" (PStr "packages") = PStr output_root ->
  let root := Path_of output_root in
  check_output_directories (PDict cfg) w =
  (fst (probe w root),
   ([inr (if path_exists w root
          then OutputDirExists (PStr output_root)
          else OutputDirAbsent (PStr output_root));
     inr (match snd (probe w root) with
          | None => WriteVerified (PStr output_root)
          | Some e => CannotWrite (PStr output_root) e
          end)],
    Ret (match snd (probe w root) with None => true | Some _ => false end))).
Proof.
  intros Hdefaults Hroot root.
  unfold check_output_directories, get_default in *.
  rewrite (sbind_Ret _ _ w w [] (PDict defaults));
    [|unfold lift; cbn [py_get ret fst snd map]; rewrite Hdefaults; reflexivity].
  rewrite (sbind_Ret _ _ w w [] (PStr output_root));
    [|unfold lift; cbn [py_get ret fst snd map]; rewrite Hroot; reflexivity].
  rewrite (sbind_Ret _ _ w w [] root eq_refl).
  rewrite (sbind_Ret _ _ w w
             [inr (if path_exists w root
                   then OutputDirExists (PStr output_root)
                   else OutputDirAbsent (PStr output_root))] tt);
    [|destruct (path_exists w root); reflexivity].
  cbv beta. unfold stry_except. cbv beta.
  rewrite (probe_run output_root w). fold root.
  unfold final_state, printed, ended.
  destruct (snd (probe w root)) as [e|]; reflexivity.
Qed.


(** X13: an [output_root] that is not a string (a number, a list, a
    key left without a value) makes the directory check raise
    [TypeError] before it prints or touches anything: the first use of
    the value is outside the [try]. *)
Theorem check_output_directories_bad_root
        (cfg defaults : dict) (output_root : pyval) (w : FS) :
  get_default cfg "defaults" (PDict []) = PDict defaults ->
  get_default defaults "output_root" (PStr "packages") = output_root ->
  (forall s : string, output_root <> PStr s) ->
  check_output_directories (PDict cfg) w = (w, ([], Raise TypeError)).
Proof.
  intros Hdefaults Hroot Hbad.
  unfold check_output_directories, get_default in *.
  rewrite (sbind_Ret _ _ w w [] (PDict defaults));
    [|unfold lift; cbn [py_get ret fst snd map]; rewrite Hdefaults; reflexivity].
  rewrite (sbind_Ret _ _ w w [] output_root);
    [|unfold lift; cbn [py_get ret fst snd map]; rewrite Hroot; reflexivity].
  cbv beta.
  rewrite (sbind_Raise _ _ w w [] TypeError); [reflexivity|].
  destruct output_root as [| | |s| |]; try reflexivity.
  exfalso. exact (Hbad s eq_refl).
Qed.

(** ** [main] of preflight.py *)

Lemma preflight_heading_run {B} (args : PreflightArgs) (k : StPy B) (w : FS) :
  (say PreflightTitle;;;
   say (PreflightConfig (preflight_config args));;;
   match preflight_bundle args with
   | Some b => if truthy (PStr b) then say (PreflightBundle b) else sret tt
   | None => sret tt
   end;;;
   say BlankLine;;; k)%stpy w =
  (final_state (k w), (preflight_heading args ++ printed (k w), ended (k w))).
Proof.
  unfold preflight_heading.
  rewrite (sbind_Ret _ _ w w [inr PreflightTitle] tt eq_refl).
  rewrite (sbind_Ret _ _ w w [inr (PreflightConfig (preflight_config args))]
                     tt eq_refl).
  assert (Hbundle :
            (match preflight_bundle args with
             | Some b => if truthy (PStr b) then say (PreflightBundle b) else sret tt
             | None => sret tt
             end) w =
            (w, (match preflight_bundle args with
                 | Some b => if (b =? "")%string then []
                             else [inr (PreflightBundle b)]
                 | None => []
                 end, Ret tt))).
  { destruct (preflight_bundle args) as [b|]; [|reflexivity].
    cbn [truthy]. destruct (b =? "")%string; reflexivity. }
  rewrite (sbind_Ret _ _ w w _ tt Hbundle).
  rewrite (sbind_Ret _ _ w w [inr BlankLine] tt eq_refl).
  unfold final_state, printed, ended. cbn [fst snd].
  rewrite <- !app_assoc. reflexivity.
Qed.

Lemma check_notion_token_returns :
  exists token_ok : bool, result check_notion_token = Ret token_ok.
Proof.
  unfold check_notion_token.
  destruct (truthy (getenv "NOTION_TOKEN")) eqn:Htoken; cbn [negb];
    [|eexists; reflexivity].
  unfold getenv in *. destruct (environ "NOTION_TOKEN"); [|discriminate].
  py_run. destruct (_ <? 20)%nat; eexists; reflexivity.
Qed.

Lemma check_bundle_config_returns (cfg : dict) (bundle_key : option string) :
  config_shape cfg = true ->
  exists bundles_ok : bool,
    result (check_bundle_config (PDict cfg) bundle_key) = Ret bundles_ok.
Proof.
  intros Hshape.
  pose proof (check_bundle_config_spec cfg bundle_key Hshape) as Hrun.
  cbv zeta in Hrun. rewrite Hrun.
  destruct (bundles_of cfg); eexists; reflexivity.
Qed.

Lemma preflight_summary_run (checks_passed : bool) (w : FS) :
  (say PreflightRule;;;
   if checks_passed
   then say AllPreflightPassed;;; say ReadyToExport;;; @sexit unit 0
   else say SomePreflightFailed;;; say FixIssues;;; @sexit unit 1)%stpy w =
  (w, (preflight_summary checks_passed,
       Exit (if checks_passed then 0 else 1)%Z)).
Proof. destruct checks_passed; reflexivity. Qed.

(** X14: with the configuration loaded, preflight runs its three
    checks one after the other, whatever the earlier ones answered,
    prints what they print in that order between its heading and its
    summary, and ends with status 0 exactly when all three answered
    true; the file system is left as the directory check left it. *)
Theorem preflight_main_exit_status
        (args : PreflightArgs) (text : string) (cfg defaults : dict)
        (output_root : string) (w : FS) :
  fs (Path_of (preflight_config args)) = Text text ->
  yaml_safe_load (universal_newlines text) = Some (PDict cfg) ->
  config_shape cfg = true ->
  get_default cfg "defaults" (PDict []) = PDict defaults ->
  get_default defaults "output_root" (PStr "packages") = PStr output_root ->
  let token := check_notion_token in
  let bundles := check_bundle_config (PDict cfg) (preflight_bundle args) in
  let dirs := check_output_directories (PDict cfg) w in
  let run := preflight_main args w in
  exists token_ok bundles_ok dirs_ok : bool,
    result token = Ret token_ok /\
    result bundles = Ret bundles_ok /\
    ended dirs = Ret dirs_ok /\
    printed run =
    preflight_heading args ++ map inl (output token) ++
    map inl (output bundles) ++ printed dirs ++
    preflight_summary (token_ok && bundles_ok && dirs_ok) /\
    ended run = Exit (if token_ok && bundles_ok && dirs_ok then 0 else 1)%Z /\
    final_state run = final_state dirs.
Proof.
  intros Hfile Hyaml Hshape Hdefaults Hroot token bundles dirs run.
  destruct check_notion_token_returns as [token_ok Htoken].
  destruct (check_bundle_config_returns cfg (preflight_bundle args) Hshape)
    as [bundles_ok Hbundles].
  pose proof (check_output_directories_spec cfg defaults output_root w
                                            Hdefaults Hroot) as Hdirs.
  cbv zeta in Hdirs. fold dirs in Hdirs.
  set (dirs_ok := match snd (probe w (Path_of output_root)) with
                  | None => true | Some _ => false end) in Hdirs.
  exists token_ok, bundles_ok, dirs_ok.
  split; [exact Htoken|]. split; [exact Hbundles|].
  split; [rewrite Hdirs; reflexivity|].
  assert (Hrun : run =
                 (final_state dirs,
                  (preflight_heading args ++ map inl (output token) ++
                   map inl (output bundles) ++ printed dirs ++
                   preflight_summary (token_ok && bundles_ok && dirs_ok),
                   Exit (if token_ok && bundles_ok && dirs_ok then 0 else 1)%Z))).
  { unfold run, preflight_main. rewrite preflight_heading_run.
    assert (Hcfg : result (load_yaml_config (preflight_config args)) =
                   Ret (PDict cfg))
      by (rewrite (load_yaml_config_ok _ _ _ Hfile Hyaml); reflexivity).
    rewrite (sbind_Ret _ _ w w _ _ (lift_Ret _ w _ Hcfg)). cbv beta zeta.
    rewrite (load_yaml_config_ok _ _ _ Hfile Hyaml). cbn [output fst map app].
    rewrite (sbind_Ret _ _ w w _ _ (lift_Ret _ w _ Htoken)). cbv beta.
    rewrite (sbind_Ret _ _ w w _ _ (lift_Ret _ w _ Hbundles)). cbv beta.
    unfold dirs in Hdirs.
    rewrite (sbind_Ret (check_output_directories (PDict cfg)) _ w _ _ _ Hdirs).
    cbv beta. rewrite preflight_summary_run.
    unfold dirs, final_state, printed, ended. rewrite Hdirs.
    cbn [fst snd andb]. fold token bundles. reflexivity. }
  rewrite Hrun. repeat split.
Qed.

(** X15: when the configuration file is missing or is not valid YAML
    preflight ends with status 1 after its heading and one line on
    the error stream: no check runs, the environment is not read and
    the file system is left untouched. *)
Theorem preflight_main_fatal (args : PreflightArgs) (w : FS) :
  (fs (Path_of (preflight_config args)) = Missing ->
   preflight_main args w =
   (w, (preflight_heading args ++
        [inl (ConfigNotFound (preflight_config args))], Exit 1))) /\
  (forall text : string,
      fs (Path_of (preflight_config args)) = Text text ->
      yaml_safe_load (universal_newlines text) = None ->
      preflight_main args w =
      (w, (preflight_heading args ++
           [inl (InvalidYaml (preflight_config args))], Exit 1))).
Proof.
  unfold preflight_main. rewrite preflight_heading_run. split.
  - intros Hfile.
    assert (Hload : load_yaml_config (preflight_config args) =
                    ([ConfigNotFound (preflight_config args)], Exit 1)).
    { unfold load_yaml_config, open_read. rewrite Hfile. reflexivity. }
    rewrite (sbind_Exit _ _ w w [inl (ConfigNotFound (preflight_config args))] 1);
      [reflexivity|].
    unfold lift. rewrite Hload. reflexivity.
  - intros text Hfile Hyaml.
    assert (Hload : load_yaml_config (preflight_config args) =
                    ([InvalidYaml (preflight_config args)], Exit 1)).
    { unfold load_yaml_config, open_read. rewrite Hfile. cbv iota.
      rewrite bind_ret, Hyaml. reflexivity. }
    rewrite (sbind_Exit _ _ w w [inl (InvalidYaml (preflight_config args))] 1);
      [reflexivity|].
    unfold lift. rewrite Hload. reflexivity.
Qed.

(** X16: an empty [--bundle] is no filter: the bundle check treats it
    as if the option had not been given and looks at every bundle,
    where a key that no bundle has would have made it fail. *)
Theorem check_bundle_config_empty_filter (cfg : pyval) :
  check_bundle_config cfg (Some "") = check_bundle_config cfg None.
Proof. reflexivity. Qed.

End World.


Arguments ManifestNotFound {Path} manifest_path.
Arguments CsvNotFound {Path} csv_path.
Arguments RowCountMismatch {Path} db_key row_count actual_count.
Arguments CsvVerified {Path} db_key actual_count.
Arguments CsvReadError {Path} csv_path e.
Arguments NoSchemaVersion {Path}.
Arguments SchemaMismatch {Path} actual_version expected_version.
Arguments VerifyTitle {Path}.
Arguments BundleLine {Path} bundle.
Arguments ConfigLine {Path} config.
Arguments CannotContinue {Path}.
Arguments PlaceholderUrl {Path} db_key notion_url.
Arguments UrlConfigured {Path} db_key.
Arguments TodoSummary {Path} todo_count.

(* ================================================================== *)
(** * The statements on the sample installation *)

(** C1 on the governance package: both files are there and read
    well, the recorded count of the second one is wrong, and the
    check returns true. *)
Lemma verify_csv_files_true_iff_witness :
  get_default Sample.manifest "items" (PList []) =
  PList [Sample.policies_item; Sample.decisions_item] /\
  forallb item_shape [Sample.policies_item; Sample.decisions_item] = true /\
  result (verify_csv_files Sample.Path Sample.joinpath Sample.fs
                           (PDict Sample.manifest) Sample.pkg_dir) = Ret true.
Proof.
  split; [reflexivity|]. split; [reflexivity|].
  destruct (verify_csv_files_true_iff
              Sample.Path Sample.joinpath Sample.fs Sample.manifest Sample.pkg_dir
              [Sample.policies_item; Sample.decisions_item]
              eq_refl eq_refl) as [[valid [Hresult Hiff]] _].
  rewrite Hresult. f_equal. apply Hiff.
  split; [discriminate|]. repeat constructor.
Defined.

(** C2 (amended) on the governance manifest: version 1.0.0 against
    an expected 1.0.0 and against an expected 2.0.0. *)
Lemma verify_schema_version_nonempty_witness :
  result (verify_schema_version Sample.Path (PDict Sample.manifest)
                                (PStr "1.0.0")) = Ret true /\
  result (verify_schema_version Sample.Path (PDict Sample.manifest)
                                (PStr "2.0.0")) = Ret false.
Proof.
  split.
  - apply (proj1 (verify_schema_version_nonempty Sample.Path)
                 Sample.manifest "1.0.0" "1.0.0" eq_refl).
    discriminate.
  - apply (proj1 (verify_schema_version_nonempty Sample.Path)
                 Sample.manifest "1.0.0" "2.0.0" eq_refl).
    discriminate.
Defined.

(** C2 as stated fails on an empty version: the manifest and the
    configuration agree on the empty string, and the check returns
    false. *)
Lemma verify_schema_version_equal_empty :
  lookup "schema_version" [("schema_version", PStr "")] = Some (PStr "") /\
  ("" =? "")%string = true /\
  verify_schema_version Sample.Path
                        (PDict [("schema_version", PStr "")]) (PStr "") =
  ([NoSchemaVersion], Ret false).
Proof. repeat split. Qed.

(** C3 (amended) on the policies file: three lines, no quote, two
    rows. *)
Lemma actual_count_is_records_minus_one_witness :
  check_item Sample.Path Sample.joinpath Sample.fs Sample.pkg_dir
             Sample.policies_item true =
  ([CsvVerified (PStr "policies") 2], Ret true) /\
  (2 = Z.of_nat (length (file_lines Sample.policies_csv)) - 1)%Z.
Proof.
  destruct (actual_count_is_records_minus_one
              Sample.Path Sample.joinpath Sample.fs Sample.pkg_dir
              Sample.policies_item true Sample.policies_csv
              [["id"; "title"]; ["1"; "Retention"]; ["2"; "Access"]]
              eq_refl eq_refl eq_refl) as [Hrun Hlines].
  split; [exact Hrun|exact (Hlines eq_refl)].
Defined.

(** C3 as stated fails on the decisions file: it has three lines, so
    lines minus one is 2, and the check counts 1 row, the quoted
    field of its one record running over two lines. *)
Lemma actual_count_is_not_lines_minus_one :
  Sample.fs (Sample.joinpath Sample.pkg_dir (item_output Sample.decisions_item)) =
  Text Sample.decisions_csv /\
  (Z.of_nat (length (file_lines Sample.decisions_csv)) - 1 = 2)%Z /\
  check_item Sample.Path Sample.joinpath Sample.fs Sample.pkg_dir
             Sample.decisions_item true =
  ([RowCountMismatch (PStr "decisions") (PInt 5) 1;
    CsvVerified (PStr "decisions") 1],
   Ret true).
Proof. repeat split. Qed.

(** C4 on the finance bundle, whose package was never written. *)
Lemma missing_manifest_is_fatal_witness :
  let args := {| bundle := "finance"; config := "chittyos-export.yaml" |} in
  Sample.fs "packages/finance/manifest.json" = Missing /\
  exists diagnostic : event Sample.Path,
    verify_manifest Sample.Path Sample.fs Sample.json_loads
                    "packages/finance/manifest.json" =
    ([diagnostic], Ret (false, PDict [])) /\
    stream_of Sample.Path diagnostic = stderr /\
    main Sample.Path Sample.Path_of Sample.joinpath Sample.fs
         Sample.json_loads Sample.yaml_safe_load args =
    ([VerifyTitle; BundleLine "finance"; ConfigLine "chittyos-export.yaml";
      diagnostic; CannotContinue],
     Exit 1).
Proof.
  split; [reflexivity|].
  apply (missing_manifest_is_fatal
           Sample.Path Sample.Path_of Sample.joinpath Sample.fs
           Sample.json_loads Sample.yaml_safe_load
           {| bundle := "finance"; config := "chittyos-export.yaml" |}
           Sample.config_text Sample.config Sample.bundles
           [("output_root", PStr "packages")] (PDict Sample.finance)
           "packages" "manifest.json"
           eq_refl eq_refl eq_refl eq_refl eq_refl eq_refl eq_refl).
  left. reflexivity.
Defined.

(** C5 on a manifest of three items, the second of which names a file
    that is not there: the check returns false and reports the two
    others with their counts. *)
Lemma verify_csv_files_missing_no_abort_witness :
  let run := verify_csv_files Sample.Path Sample.joinpath Sample.fs
                              (PDict Sample.manifest_with_missing)
                              Sample.pkg_dir in
  Sample.fs (Sample.joinpath Sample.pkg_dir (item_output Sample.minutes_item)) =
  Missing /\
  result run = Ret false /\
  In (CsvVerified (PStr "policies") 2) (output run) /\
  In (CsvVerified (PStr "decisions") 1) (output run) /\
  In (CsvNotFound "packages/governance/minutes.csv") (output run).
Proof.
  intros run. split; [reflexivity|].
  destruct (verify_csv_files_missing_no_abort
              Sample.Path Sample.joinpath Sample.fs
              Sample.manifest_with_missing Sample.pkg_dir
              [Sample.policies_item; Sample.minutes_item; Sample.decisions_item]
              Sample.minutes_item eq_refl eq_refl
              (or_intror (or_introl eq_refl)) eq_refl) as [Hfalse Hothers].
  split; [exact Hfalse|]. repeat split.
  - destruct (Hothers Sample.policies_item (or_introl eq_refl)) as [Hcount _].
    exact (Hcount Sample.policies_csv
                  [["id"; "title"]; ["1"; "Retention"]; ["2"; "Access"]]
                  eq_refl eq_refl).
  - destruct (Hothers Sample.decisions_item
                      (or_intror (or_intror (or_introl eq_refl))))
      as [Hcount _].
    exact (Hcount Sample.decisions_csv
                  [["id"; "note"];
                   [("first line" ++ Sample.newline ++ "second line")%string; "7"]]
                  eq_refl eq_refl).
  - destruct (Hothers Sample.minutes_item (or_intror (or_introl eq_refl)))
      as [_ [_ Hmissing]].
    exact (Hmissing eq_refl).
Defined.

(** C6 on the sample configuration with the filter [governance]: one
    of its two databases is a placeholder; the check returns true,
    with one warning and a summary counting one. *)
Lemma check_bundle_config_true_iff_witness :
  let run := check_bundle_config Sample.Path (PDict Sample.config)
                                 (Some "governance") in
  config_shape Sample.config = true /\
  result run = Ret true /\
  filter (is_placeholder_warning Sample.Path) (output run) =
  [PlaceholderUrl (PStr "decisions") (PStr "TODO:pending")] /\
  filter (is_todo_summary Sample.Path) (output run) = [TodoSummary 1].
Proof.
  intros run. split; [reflexivity|].
  destruct (check_bundle_config_true_iff
              Sample.Path Sample.config (Some "governance") eq_refl)
    as [[valid [Hresult Hiff]] [Hwarnings Hsummaries]].
  split; [|split; [exact Hwarnings|exact Hsummaries]].
  unfold run. rewrite Hresult. f_equal. apply Hiff.
  split; [discriminate|].
  intros key [<-|[]]. reflexivity.
Defined.

(** C8 on the governance manifest. *)
Lemma verify_chittyid_compliance_true_witness :
  audit_shape Sample.manifest = true /\
  result (verify_chittyid_compliance Sample.Path (PDict Sample.manifest)) =
  Ret true.
Proof.
  split; [reflexivity|].
  exact (proj1 (verify_chittyid_compliance_true Sample.Path)
               Sample.manifest eq_refl).
Defined.

(** C9 on the ledger database of the finance bundle, which has no
    [notion_url]. *)
Lemma check_db_no_url_is_configured_witness :
  no_url Sample.ledger_db = true /\
  check_db Sample.Path Sample.ledger_db 0 =
  ([UrlConfigured (PStr "ledger")], Ret 0%nat).
Proof.
  split; [reflexivity|].
  exact (proj1 (check_db_no_url_is_configured Sample.Path Sample.ledger_db
                                              eq_refl) 0%nat).
Defined.

(** C10 on a manifest whose [schema_version] is the empty string. *)
Lemma verify_schema_version_falsy_is_missing_witness :
  truthy (PStr "") = false /\
  verify_schema_version Sample.Path (PDict [("schema_version", PStr "")])
                        (PStr "1.0.0") =
  ([NoSchemaVersion], Ret false).
Proof.
  split; [reflexivity|].
  exact (verify_schema_version_falsy_is_missing
           Sample.Path [("schema_version", PStr "")] (PStr "") (PStr "1.0.0")
           eq_refl eq_refl).
Defined.

(* ------------------------------------------------------------------ *)
(** ** Whole runs on the sample installation *)

(** The 32 characters of the sample token pass the credential check;
    with no environment at all it fails. *)
Example check_notion_token_sample :
  check_notion_token Sample.Path Sample.environ = ([TokenSet Sample.Path], Ret true) /\
  check_notion_token Sample.Path (fun _ => None) =
  ([TokenNotSet Sample.Path], Ret false).
Proof. split; reflexivity. Qed.

(** A manifest at version 2.0.0 against a bundle at 1.0.0: false, with
    a warning that names both. *)
Example verify_schema_version_mismatch :
  verify_schema_version Sample.Path
                        (PDict [("schema_version", PStr "2.0.0")])
                        (PStr "1.0.0") =
  ([SchemaMismatch (PStr "2.0.0") (PStr "1.0.0")], Ret false).
Proof. reflexivity. Qed.

(** The verifier on the governance bundle: every check passes, the
    wrong row count of the second file being a warning only, and the
    process exits with status 0. *)
Example main_governance :
  result (main Sample.Path Sample.Path_of Sample.joinpath Sample.fs
               Sample.json_loads Sample.yaml_safe_load
               {| bundle := "governance"; config := "chittyos-export.yaml" |}) =
  Exit 0.
Proof. reflexivity. Qed.

(** A data file that exists and cannot be read (here the package
    directory itself, the item giving no [output]) fails the data-file
    check. *)
Example verify_csv_files_unreadable :
  verify_csv_files Sample.Path Sample.joinpath Sample.fs
                   (PDict [("items", PList [PDict [("db_key", PStr "none")]])])
                   Sample.pkg_dir =
  ([CsvReadError Sample.pkg_dir OSError], Ret false).
Proof. reflexivity. Qed.

(* ================================================================== *)
(** * The further properties on the sample installation *)

Arguments ConfigNotFound {Path} path.
Arguments BundleNotFound {Path} key.
Arguments ChittyIdPresent {Path} chitty_id.

(** X1 on the sample configuration file and on a name nothing has. *)
Lemma load_yaml_config_cases_witness :
  result (load_yaml_config Sample.Path Sample.Path_of Sample.fs
                           Sample.yaml_safe_load "chittyos-export.yaml") =
  Ret (PDict Sample.config) /\
  load_yaml_config Sample.Path Sample.Path_of Sample.fs
                   Sample.yaml_safe_load "nowhere.yaml" =
  ([ConfigNotFound "nowhere.yaml"], Exit 1).
Proof.
  destruct (load_yaml_config_cases Sample.Path Sample.Path_of Sample.fs
              Sample.yaml_safe_load "chittyos-export.yaml") as [Hok _].
  destruct (load_yaml_config_cases Sample.Path Sample.Path_of Sample.fs
              Sample.yaml_safe_load "nowhere.yaml") as [_ [Hmissing _]].
  split.
  - apply Hok. exists Sample.config_text. split; reflexivity.
  - exact (Hmissing eq_refl).
Defined.

(** X2 on the manifest of the governance package, and on the package
    directory taken for a manifest. *)
Lemma verify_manifest_cases_witness :
  result (verify_manifest Sample.Path Sample.fs Sample.json_loads
                          "packages/governance/manifest.json") =
  Ret (true, PDict Sample.manifest) /\
  verify_manifest Sample.Path Sample.fs Sample.json_loads Sample.pkg_dir =
  ([], Raise OSError).
Proof.
  destruct (verify_manifest_cases Sample.Path Sample.fs Sample.json_loads
              "packages/governance/manifest.json") as [Hok _].
  destruct (verify_manifest_cases Sample.Path Sample.fs Sample.json_loads
              Sample.pkg_dir) as [_ [_ Hunreadable]].
  split.
  - apply Hok. exists Sample.manifest_text. split; reflexivity.
  - exact (Hunreadable eq_refl).
Defined.

(** X4 on a bundle key the sample configuration does not have. *)
Lemma main_fatal_before_checks_witness :
  main Sample.Path Sample.Path_of Sample.joinpath Sample.fs
       Sample.json_loads Sample.yaml_safe_load
       {| bundle := "legal"; config := "chittyos-export.yaml" |} =
  ([VerifyTitle; BundleLine "legal"; ConfigLine "chittyos-export.yaml";
    BundleNotFound "legal"],
   Exit 1).
Proof.
  destruct (main_fatal_before_checks
              Sample.Path Sample.Path_of Sample.joinpath Sample.fs
              Sample.json_loads Sample.yaml_safe_load
              {| bundle := "legal"; config := "chittyos-export.yaml" |})
    as [_ [_ Hunknown]].
  exact (Hunknown Sample.config_text Sample.config Sample.bundles
                  eq_refl eq_refl eq_refl eq_refl).
Defined.

(** X5 on the governance bundle: both checks answer true and the
    verifier ends with status 0. *)
Lemma main_exit_status_witness :
  result (main Sample.Path Sample.Path_of Sample.joinpath Sample.fs
               Sample.json_loads Sample.yaml_safe_load
               {| bundle := "governance"; config := "chittyos-export.yaml" |}) =
  Exit 0.
Proof.
  destruct (main_exit_status
              Sample.Path Sample.Path_of Sample.joinpath Sample.fs
              Sample.json_loads Sample.yaml_safe_load
              {| bundle := "governance"; config := "chittyos-export.yaml" |}
              Sample.config_text Sample.config Sample.bundles
              [("output_root", PStr "packages")] Sample.governance
              "packages" "manifest.json" Sample.manifest_text Sample.manifest
              [Sample.policies_item; Sample.decisions_item]
              eq_refl eq_refl eq_refl eq_refl eq_refl eq_refl eq_refl
              eq_refl eq_refl eq_refl eq_refl eq_refl)
    as [data_ok [version_ok [Hdata [Hversion Hmain]]]].
  assert (Hd : Ret data_ok = @Ret bool true) by (rewrite <- Hdata; reflexivity).
  assert (Hv : Ret version_ok = @Ret bool true)
    by (rewrite <- Hversion; reflexivity).
  injection Hd as ->. injection Hv as ->.
  rewrite Hmain. reflexivity.
Defined.

(** X6 on a manifest whose second item is a number. *)
Lemma verify_csv_files_malformed_item_witness :
  verify_csv_files Sample.Path Sample.joinpath Sample.fs
                   (PDict Sample.manifest_with_number) Sample.pkg_dir =
  ([CsvVerified (PStr "policies") 2], Raise AttributeError).
Proof.
  exact (verify_csv_files_malformed_item
           Sample.Path Sample.joinpath Sample.fs
           Sample.manifest_with_number Sample.pkg_dir
           [Sample.policies_item] [Sample.decisions_item] (PInt 3)
           eq_refl eq_refl eq_refl).
Defined.

(** X7 on the manifest of three items, one of them missing. *)
Lemma verify_csv_files_one_verdict_each_witness :
  length (filter (is_item_verdict Sample.Path)
                 (output (verify_csv_files Sample.Path Sample.joinpath Sample.fs
                                           (PDict Sample.manifest_with_missing)
                                           Sample.pkg_dir))) = 3%nat.
Proof.
  exact (verify_csv_files_one_verdict_each
           Sample.Path Sample.joinpath Sample.fs
           Sample.manifest_with_missing Sample.pkg_dir
           [Sample.policies_item; Sample.minutes_item; Sample.decisions_item]
           eq_refl eq_refl).
Defined.

(** X9 on the governance manifest, which has an identifier. *)
Lemma verify_chittyid_compliance_report_witness :
  verify_chittyid_compliance Sample.Path (PDict Sample.manifest) =
  ([ChittyIdPresent (PStr "CHITTY-GOV-0001")], Ret true).
Proof.
  exact (proj1 (verify_chittyid_compliance_report
                  Sample.Path Sample.manifest eq_refl)).
Defined.


(** X11 on the sample configuration with no filter. *)
Lemma check_bundle_config_announces_witness :
  announced_keys Sample.Path
                 (output (check_bundle_config Sample.Path (PDict Sample.config)
                                              None)) =
  ["governance"; "finance"].
Proof.
  assert (Hnonempty : bundles_of Sample.config <> []) by discriminate.
  exact (proj2 (check_bundle_config_announces
                  Sample.Path Sample.config None eq_refl Hnonempty)).
Defined.


(** X13 on a configuration whose output root is the number 5. *)
Lemma check_output_directories_bad_root_witness :
  check_output_directories
    Sample.Path Sample.Path_of Sample.joinpath Sample.FS
    Sample.path_exists Sample.mkdir_parents Sample.write_text
    Sample.unlink (PDict Sample.numeric_root_config) [] =
  ([], ([], Raise TypeError)).
Proof.
  apply (check_output_directories_bad_root
           Sample.Path Sample.Path_of Sample.joinpath Sample.FS
           Sample.path_exists Sample.mkdir_parents Sample.write_text
           Sample.unlink Sample.numeric_root_config
           [("output_root", PInt 5)] (PInt 5) [] eq_refl eq_refl).
  discriminate.
Defined.

(** X14 on the sample installation, filtered on the governance bundle,
    from an empty file system: the three checks answer true. *)
Lemma preflight_main_exit_status_witness :
  let run := preflight_main
               Sample.Path Sample.Path_of Sample.joinpath Sample.fs
               Sample.environ Sample.yaml_safe_load Sample.FS
               Sample.path_exists Sample.mkdir_parents Sample.write_text
               Sample.unlink
               {| preflight_config := "chittyos-export.yaml";
                  preflight_bundle := Some "governance" |} [] in
  ended Sample.Path Sample.FS run = Exit 0 /\
  final_state Sample.Path Sample.FS run = ["packages"].
Proof.
  intros run.
  destruct (preflight_main_exit_status
              Sample.Path Sample.Path_of Sample.joinpath Sample.fs
              Sample.environ Sample.yaml_safe_load Sample.FS
              Sample.path_exists Sample.mkdir_parents Sample.write_text
              Sample.unlink
              {| preflight_config := "chittyos-export.yaml";
                 preflight_bundle := Some "governance" |}
              Sample.config_text Sample.config [("output_root", PStr "packages")]
              "packages" [] eq_refl eq_refl eq_refl eq_refl eq_refl)
    as [token_ok [bundles_ok [dirs_ok
          [Htoken [Hbundles [Hdirs [_ [Hended Hstate]]]]]]]].
  assert (Ht : Ret token_ok = @Ret bool true)
    by (rewrite <- Htoken; reflexivity).
  assert (Hb : Ret bundles_ok = @Ret bool true)
    by (rewrite <- Hbundles; reflexivity).
  assert (Hd : Ret dirs_ok = @Ret bool true)
    by (rewrite <- Hdirs; reflexivity).
  injection Ht as ->. injection Hb as ->. injection Hd as ->.
  split; [exact Hended|]. fold run in Hstate. rewrite Hstate. reflexivity.
Defined.

(** X15 on a configuration file that is not there: the file system,
    here with one directory, is handed back as it was. *)
Lemma preflight_main_fatal_witness :
  preflight_main
    Sample.Path Sample.Path_of Sample.joinpath Sample.fs
    Sample.environ Sample.yaml_safe_load Sample.FS
    Sample.path_exists Sample.mkdir_parents Sample.write_text Sample.unlink
    {| preflight_config := "nowhere.yaml"; preflight_bundle := None |}
    ["packages"] =
  (["packages"],
   ([inr PreflightTitle; inr (PreflightConfig "nowhere.yaml"); inr BlankLine;
     inl (ConfigNotFound "nowhere.yaml")],
    Exit 1)).
Proof.
  exact (proj1 (preflight_main_fatal
                  Sample.Path Sample.Path_of Sample.joinpath Sample.fs
                  Sample.environ Sample.yaml_safe_load Sample.FS
                  Sample.path_exists Sample.mkdir_parents Sample.write_text
                  Sample.unlink
                  {| preflight_config := "nowhere.yaml";
                     preflight_bundle := None |}
                  ["packages"]) eq_refl).
Defined.
